(** * Cloudlette Weather App: a shallow embedding of [scripts/app.js]

    The development follows the source file top to bottom: the static
    [weatherIcons] table, [escapeHtml], [fetchJSON], [getWeather] and the
    submit listener of the search form.  JavaScript values that travel through
    the program (the decoded JSON bodies of the two Open-Meteo answers) are an
    inductive type; the network, the clock and the time zone of the browser
    are an explicit [World]; promises are run to their outcome in a small
    state-and-exception monad that also records every request issued. *)

From stdpp Require Import base strings pretty list gmap.
From Stdlib Require Import Ascii ZArith Lia.

Local Set Warnings "-register-all".
Local Open Scope string_scope.
Local Open Scope Z_scope.

(** ** JavaScript values *)

(** A Number is carried by its canonical decimal text ([Number::toString]):
    the program never does arithmetic on the numbers it receives, it only
    tests them for truth, uses them as property keys and splices them into
    URLs and markup, and all of these observe the text only.  Strings are
    sequences of bytes (UTF-8).  An object is the list of its own fields as
    [JSON.parse] leaves them, one per key. *)
Inductive value : Type :=
  | VUndefined
  | VNull
  | VBool (b : bool)
  | VNum (text : string)
  | VStr (s : string)
  | VArr (elems : list value)
  | VObj (fields : list (string * value)).

(** The Number whose value is the integer [z], printed in plain digits with a
    leading minus sign when negative, as every integer below 10^21 in
    magnitude is. *)
Definition VInt (z : Z) : value := VNum (pretty z).

(** [ToBoolean]: [undefined], [null], [false], [0], [NaN] and the empty string
    are falsy, every other value is truthy. *)
Definition truthy (v : value) : bool :=
  match v with
  | VUndefined | VNull => false
  | VBool b => b
  | VNum t => negb (String.eqb t "0" || String.eqb t "NaN")
  | VStr s => negb (String.eqb s "")
  | VArr _ | VObj _ => true
  end.

Definition nullish (v : value) : bool :=
  match v with
  | VUndefined | VNull => true
  | _ => false
  end.

(** Own property of a decoded JSON object. *)
Fixpoint assoc (k : string) (fields : list (string * value)) : option value :=
  match fields with
  | [] => None
  | (k', v) :: rest => if String.eqb k k' then Some v else assoc k rest
  end.

(** [ToString], as applied by template literals and by property keys; [None]
    stands for the TypeError raised when an object cannot be converted to a
    primitive.  A decoded JSON object prints as [[object Object]] through
    [Object.prototype.toString], unless an own [toString] field (never a
    function) hides that method.  An array prints its elements separated by
    commas, with [null] and [undefined] elements printed as nothing. *)
Fixpoint to_string (v : value) : option string :=
  match v with
  | VUndefined => Some "undefined"
  | VNull => Some "null"
  | VBool true => Some "true"
  | VBool false => Some "false"
  | VNum t => Some t
  | VStr s => Some s
  | VArr elems =>
      (fix join (l : list value) : option string :=
         match l with
         | [] => Some EmptyString
         | x :: rest =>
             match (if nullish x then Some EmptyString else to_string x) with
             | None => None
             | Some here =>
                 match rest with
                 | [] => Some here
                 | _ :: _ =>
                     match join rest with
                     | None => None
                     | Some more => Some (here +:+ "," +:+ more)
                     end
                 end
             end
         end) elems
  | VObj fields =>
      match assoc "toString" fields with
      | Some _ => None
      | None => Some "[object Object]"
      end
  end.

(** JavaScript counts and indexes a string by UTF-16 code units, and the text
    is held here as UTF-8 bytes.  [characters] cuts the bytes into characters,
    a lead byte with the continuation bytes that follow it. *)
Definition is_continuation (c : ascii) : bool :=
  (N_of_ascii c / 64 =? 2)%N.

Fixpoint characters_from (s : string) : string * list string :=
  match s with
  | EmptyString => (EmptyString, [])
  | String c rest =>
      let '(pending, found) := characters_from rest in
      if is_continuation c then (String c pending, found)
      else (EmptyString, String c pending :: found)
  end.

(** Continuation bytes with no lead byte before them, which text in UTF-8
    does not have, are kept as a piece of their own. *)
Definition characters (s : string) : list string :=
  let '(pending, found) := characters_from s in
  match pending with
  | EmptyString => found
  | _ => pending :: found
  end.

(** The code point of a character of four bytes. *)
Definition code_point (character : string) : N :=
  match character with
  | String b0 (String b1 (String b2 (String b3 _))) =>
      (N_of_ascii b0 mod 8 * 262144 + N_of_ascii b1 mod 64 * 4096
       + N_of_ascii b2 mod 64 * 64 + N_of_ascii b3 mod 64)%N
  | _ => 0%N
  end.

(** A surrogate has no UTF-8 form of its own; it is written with the three
    bytes the general scheme gives a code unit of its size. *)
Definition unit_bytes (u : N) : string :=
  String (ascii_of_N (224 + u / 4096))
    (String (ascii_of_N (128 + u / 64 mod 64))
       (String (ascii_of_N (128 + u mod 64)) EmptyString)).

(** A character of up to three bytes is one code unit; a character of four
    bytes lies beyond the basic plane and is a pair of surrogates. *)
Definition units_of (character : string) : list string :=
  match character with
  | String b0 _ =>
      if (240 <=? N_of_ascii b0)%N then
        let offset := (code_point character - 65536)%N in
        [unit_bytes (55296 + offset / 1024); unit_bytes (56320 + offset mod 1024)]
      else [character]
  | EmptyString => []
  end.

Definition code_units (s : string) : list string :=
  concat (units_of <$> characters s).

(** [v.name] for a value [v] that is neither [null] nor [undefined].  None of
    the names the program reads ([results], [current_weather], [daily],
    [time], ...) is a member of a built-in prototype, so on anything but an
    object the read gives [undefined], [length] apart; the length of a string
    is its number of code units. *)
Definition get_field (v : value) (name : string) : value :=
  match v with
  | VObj fields => default VUndefined (assoc name fields)
  | VArr elems =>
      if String.eqb name "length" then VInt (Z.of_nat (length elems))
      else VUndefined
  | VStr s =>
      if String.eqb name "length" then VInt (Z.of_nat (length (code_units s)))
      else VUndefined
  | _ => VUndefined
  end.

(** [v[i]] for an integer index [i] and a value [v] that is neither [null]
    nor [undefined]; reading past the end of an array gives [undefined].  On
    a string the read gives the code unit at [i] as a string of its own. *)
Definition get_index (v : value) (i : nat) : value :=
  match v with
  | VArr elems => default VUndefined (elems !! i)
  | VObj fields => default VUndefined (assoc (pretty i) fields)
  | VStr s =>
      match code_units s !! i with
      | Some unit => VStr unit
      | None => VUndefined
      end
  | _ => VUndefined
  end.

(** ** The lookup table [weatherIcons] *)

Record ConditionInfo : Type := {
  description : string;
  iconClass : string
}.

(** The entries of the object literal, in source order, under their numeric
    keys. *)
Definition weatherIcons_entries : list (Z * ConditionInfo) :=
  [ (0,  {| description := "Clear sky"; iconClass := "wi-day-sunny" |});
    (1,  {| description := "Mainly clear"; iconClass := "wi-day-sunny-overcast" |});
    (2,  {| description := "Partly cloudy"; iconClass := "wi-day-cloudy" |});
    (3,  {| description := "Overcast"; iconClass := "wi-cloudy" |});
    (45, {| description := "Fog"; iconClass := "wi-fog" |});
    (48, {| description := "Depositing rime fog"; iconClass := "wi-fog" |});
    (51, {| description := "Light drizzle"; iconClass := "wi-sprinkle" |});
    (53, {| description := "Moderate drizzle"; iconClass := "wi-sprinkle" |});
    (55, {| description := "Dense drizzle"; iconClass := "wi-showers" |});
    (56, {| description := "Light freezing drizzle"; iconClass := "wi-hail" |});
    (57, {| description := "Dense freezing drizzle"; iconClass := "wi-hail" |});
    (61, {| description := "Slight rain"; iconClass := "wi-sprinkle" |});
    (63, {| description := "Moderate rain"; iconClass := "wi-rain" |});
    (65, {| description := "Heavy rain"; iconClass := "wi-rain-wind" |});
    (66, {| description := "Light freezing rain"; iconClass := "wi-rain-mix" |});
    (67, {| description := "Heavy freezing rain"; iconClass := "wi-rain-mix" |});
    (71, {| description := "Slight snowfall"; iconClass := "wi-snow" |});
    (73, {| description := "Moderate snowfall"; iconClass := "wi-snow" |});
    (75, {| description := "Heavy snowfall"; iconClass := "wi-snow" |});
    (77, {| description := "Snow grains"; iconClass := "wi-snowflake-cold" |});
    (80, {| description := "Slight rain showers"; iconClass := "wi-showers" |});
    (81, {| description := "Moderate rain showers"; iconClass := "wi-showers" |});
    (82, {| description := "Violent rain showers"; iconClass := "wi-storm-showers" |});
    (85, {| description := "Slight snow showers"; iconClass := "wi-snow" |});
    (86, {| description := "Heavy snow showers"; iconClass := "wi-snow" |});
    (95, {| description := "Thunderstorm"; iconClass := "wi-thunderstorm" |});
    (96, {| description := "Thunderstorm with slight hail"; iconClass := "wi-thunderstorm" |});
    (99, {| description := "Thunderstorm with heavy hail"; iconClass := "wi-thunderstorm" |}) ].

(** The known condition codes. *)
Definition known_codes : list Z := weatherIcons_entries.*1.

(** The object itself: a numeric literal used as a property name denotes the
    string it prints as. *)
Definition weatherIcons : gmap string ConditionInfo :=
  list_to_map (prod_map pretty id <$> weatherIcons_entries).

(** Members every object literal inherits from [Object.prototype]. *)
Definition object_prototype_names : list string :=
  [ "constructor"; "hasOwnProperty"; "isPrototypeOf"; "propertyIsEnumerable";
    "toLocaleString"; "toString"; "valueOf"; "__proto__";
    "__defineGetter__"; "__defineSetter__"; "__lookupGetter__";
    "__lookupSetter__" ].

(** What [weatherIcons[code]] evaluates to. *)
Inductive table_read : Type :=
  | Own (info : ConditionInfo)   (* one of the entries *)
  | Inherited                    (* a member of [Object.prototype]: truthy *)
  | Absent.                      (* [undefined] *)

Definition weatherIcons_key (key : string) : table_read :=
  match weatherIcons !! key with
  | Some info => Own info
  | None =>
      if bool_decide (key ∈ object_prototype_names) then Inherited else Absent
  end.

(** [None]: the code cannot be turned into a property key (TypeError). *)
Definition weatherIcons_get (code : value) : option table_read :=
  weatherIcons_key <$> to_string code.

(** The object the two [||] expressions of [getWeather] yield, seen through
    the two properties read from it afterwards. *)
Record Resolved : Type := {
  r_description : value;
  r_iconClass : value
}.

Definition fallback : Resolved :=
  {| r_description := VStr "Unknown condition"; r_iconClass := VStr "wi-na" |}.

(** [weatherIcons[code] || { description: "Unknown condition", iconClass: "wi-na" }] *)
Definition or_fallback (read : table_read) : Resolved :=
  match read with
  | Own info =>
      {| r_description := VStr (description info);
         r_iconClass := VStr (iconClass info) |}
  | Inherited =>
      {| r_description := VUndefined; r_iconClass := VUndefined |}
  | Absent => fallback
  end.

Definition resolve (code : value) : option Resolved :=
  or_fallback <$> weatherIcons_get code.

(** ** [escapeHtml]: the replacement itself *)

(** The character the entity [&quot;] stands for. *)
Definition dquote : Ascii.ascii := Ascii.ascii_of_nat 34.

(** The object literal [map] applied to one matched character, and the
    character itself where the pattern does not match. *)
Definition escape_char (c : Ascii.ascii) : string :=
  if Ascii.eqb c "&"%char then "&amp;"
  else if Ascii.eqb c "<"%char then "&lt;"
  else if Ascii.eqb c ">"%char then "&gt;"
  else if Ascii.eqb c dquote then "&quot;"
  else if Ascii.eqb c "'"%char then "&#039;"
  else String c EmptyString.

(** [s.replace(re, m => map[m])], where the global pattern [re] matches any
    one of the five characters that [map] has an entry for. *)
Fixpoint escape_text (s : string) : string :=
  match s with
  | EmptyString => EmptyString
  | String c rest => escape_char c +:+ escape_text rest
  end.

(** ** Exceptions and promises *)

Inductive error_name : Type := Error | TypeError | SyntaxError | AbortError.

#[global] Instance error_name_eq_dec : EqDecision error_name.
Proof. solve_decision. Defined.

(** Messages worded by the engine rather than by the program. *)
Inductive fault : Type :=
  | ReadOfNullish (what : string)   (* a property read on null or undefined *)
  | NotAFunction (what : string)    (* a call of something that is no function *)
  | NotPrimitive                    (* an object with no usable toString *)
  | FetchFailed                     (* the network layer gave up *)
  | BodyUnreadable                  (* the body is no JSON text *)
  | SignalAborted.                  (* the abort signal fired *)

Inductive msg : Type :=
  | Msg (s : string)
  | EngineMsg (f : fault).

Record exn : Type := { name : error_name; message : msg }.

(** [new Error(m)] *)
Definition new_Error (m : msg) : exn := {| name := Error; message := m |}.
Definition engine_error (n : error_name) (f : fault) : exn :=
  {| name := n; message := EngineMsg f |}.

(** What the network does with a request when nobody interrupts it.  Times are
    in milliseconds, counted from the moment the previous step ended. *)
Inductive Body : Type :=
  | BodyJson (after : Z) (v : value)  (* the body arrives and decodes to [v] *)
  | BodyInvalid (after : Z)           (* [response.json()] rejects *)
  | BodyStalled.                      (* the body never ends *)

Inductive Exchange : Type :=
  | Unreachable (after : Z)           (* [fetch] rejects with a TypeError *)
  | Silent                            (* no answer ever *)
  | Response (after : Z) (ok : bool) (body : Body).

(** Everything the program takes from its surroundings. *)
Record World : Type := {
  net : string -> Exchange;
  (* offset of local time in ms; the flag says whether the instant is UTC *)
  LocalTZA : Z -> bool -> Z;
  engine_text : fault -> string;
  (* [new Date(v).toLocaleTimeString([], {hour: '2-digit', minute: '2-digit'})],
     [None] where building the Date throws *)
  toLocaleTimeString : value -> option string
}.

(** What the result area of the page shows: text set through [textContent],
    or markup set through [innerHTML]. *)
Inductive Display : Type :=
  | TextContent (text : string)
  | InnerHTML (html : string).

(** The running state: the clock (ms since the epoch, UTC), the deadline of the
    pending abort timer if one is armed, the requests sent so far, and the
    result area of the page. *)
Record State : Type := {
  now : Z;
  timer : option Z;
  requests : list string;
  resultDiv : Display
}.

Definition set_clock (t : Z) (deadline : option Z) (st : State) : State :=
  {| now := t; timer := deadline; requests := requests st;
     resultDiv := resultDiv st |}.

Inductive Outcome (A : Type) : Type :=
  | Returned (a : A)
  | Threw (e : exn)
  | Pending.          (* the promise never settles *)
Arguments Returned {A} a.
Arguments Threw {A} e.
Arguments Pending {A}.

Definition M (A : Type) : Type := State -> State * Outcome A.

Definition ret {A} (a : A) : M A := fun st => (st, Returned a).
Definition throw {A} (e : exn) : M A := fun st => (st, Threw e).
Definition bind {A B} (m : M A) (k : A -> M B) : M B :=
  fun st =>
    match m st with
    | (st', Returned a) => k a st'
    | (st', Threw e) => (st', Threw e)
    | (st', Pending) => (st', Pending)
    end.
(** [try { m } catch (e) { h e }] *)
Definition try_catch {A} (m : M A) (h : exn -> M A) : M A :=
  fun st =>
    match m st with
    | (st', Threw e) => h e st'
    | other => other
    end.

Notation "x <- m ;; k" := (bind m (fun x => k))
  (at level 100, m at next level, right associativity).
Notation "m ;;; k" := (bind m (fun _ => k))
  (at level 100, right associativity).

(** A synchronous step that may raise. *)
Definition lift_option {A} (e : exn) (o : option A) : M A :=
  match o with
  | Some a => ret a
  | None => throw e
  end.

(** [`${v}`] *)
Definition template (v : value) : M string :=
  lift_option (engine_error TypeError NotPrimitive) (to_string v).

(** [v.name], which throws when [v] is null or undefined. *)
Definition member (v : value) (field : string) : M value :=
  if nullish v then throw (engine_error TypeError (ReadOfNullish field))
  else ret (get_field v field).

(** [v[i]], which throws when [v] is null or undefined. *)
Definition element (v : value) (i : nat) : M value :=
  if nullish v then throw (engine_error TypeError (ReadOfNullish (pretty i)))
  else ret (get_index v i).

(** [escapeHtml(text)]: [text.toString()] is a method call, so it throws on
    null and undefined, and on an object whose own [toString] field hides the
    inherited method. *)
Definition escapeHtml (text : value) : M string :=
  if nullish text then throw (engine_error TypeError (ReadOfNullish "toString"))
  else
    match text with
    | VObj fields =>
        match assoc "toString" fields with
        | Some _ => throw (engine_error TypeError (NotAFunction "toString"))
        | None => ret (escape_text "[object Object]")
        end
    | _ => s <- template text ;; ret (escape_text s)
    end.

(** ** [fetchJSON] *)

(** The conversion of a Number to a 32-bit signed integer, which is what the
    delay parameter of [setTimeout] goes through. *)
Definition ToInt32 (z : Z) : Z :=
  (z + 2147483648) mod 4294967296 - 2147483648.

(** The delay [setTimeout] arms for the argument [timeout]: the argument as a
    32-bit integer, and nothing when that is negative.  A delay of 2^31 ms or
    more therefore wraps around; 2^31 itself fires at once. *)
Definition timer_delay (timeout : Z) : Z := Z.max 0 (ToInt32 timeout).

(** [setTimeout(() => controller.abort(), timeout)] *)
Definition setTimeout_abort (timeout : Z) : M unit :=
  fun st =>
    (set_clock (now st) (Some (now st + timer_delay timeout)) st, Returned tt).

Definition clearTimeout : M unit :=
  fun st => (set_clock (now st) None st, Returned tt).

(** Waiting for something that happens [after] ms from now ([None]: never)
    on a request bound to the abort signal.  If the timer is armed and its
    deadline comes first, or at the same time, the signal fires and the wait
    ends in an AbortError. *)
Definition await_signal (after : option Z) : M unit :=
  fun st =>
    match timer st, after with
    | Some deadline, Some t =>
        if bool_decide (deadline <= now st + t)
        then (set_clock (Z.max (now st) deadline) None st,
              Threw (engine_error AbortError SignalAborted))
        else (set_clock (now st + t) (timer st) st, Returned tt)
    | Some deadline, None =>
        (set_clock (Z.max (now st) deadline) None st,
         Threw (engine_error AbortError SignalAborted))
    | None, Some t => (set_clock (now st + t) None st, Returned tt)
    | None, None => (st, Pending)
    end.

Definition send (url : string) : M unit :=
  fun st =>
    ({| now := now st; timer := timer st; requests := requests st ++ [url];
        resultDiv := resultDiv st |}, Returned tt).

(** [await fetch(url, { signal: controller.signal })]: the promise settles when
    the response head has arrived; the body is still to be read. *)
Definition fetch (w : World) (url : string) : M (bool * Body) :=
  send url ;;;
  match net w url with
  | Unreachable t =>
      await_signal (Some t) ;;; throw (engine_error TypeError FetchFailed)
  | Silent => await_signal None ;;; throw (engine_error TypeError FetchFailed)
  | Response t ok body => await_signal (Some t) ;;; ret (ok, body)
  end.

(** [await response.json()] *)
Definition json (body : Body) : M value :=
  match body with
  | BodyJson t v => await_signal (Some t) ;;; ret v
  | BodyInvalid t =>
      await_signal (Some t) ;;; throw (engine_error SyntaxError BodyUnreadable)
  | BodyStalled =>
      await_signal None ;;; throw (engine_error SyntaxError BodyUnreadable)
  end.

Definition timeout_message : string :=
  "Request timed out. Please try again later.".

(** The third parameter defaults to 5000; both callers rely on the default,
    which is written out at the call sites here. *)
Definition fetchJSON (w : World) (url errorMessage : string) (timeout : Z)
  : M value :=
  setTimeout_abort timeout ;;;
  try_catch
    (response <- fetch w url ;;
     clearTimeout ;;;
     if negb (fst response) then throw (new_Error (Msg errorMessage))
     else json (snd response))
    (fun err =>
       clearTimeout ;;;
       if bool_decide (name err = AbortError)
       then throw (new_Error (Msg timeout_message))
       else throw (new_Error (Msg errorMessage))).

(** ** Dates

    The built-in [Date] after ECMA-262: a time value is a number of
    milliseconds since the epoch, UTC; the calendar is the proleptic Gregorian
    one. *)

Definition msPerDay : Z := 86400000.
Definition Day (t : Z) : Z := t / msPerDay.
Definition TimeWithinDay (t : Z) : Z := t mod msPerDay.

(** Year, month (1 to 12) and day of the month of a day number. *)
Definition civil_from_days (days : Z) : Z * Z * Z :=
  let z := days + 719468 in
  let era := z / 146097 in
  let doe := z - era * 146097 in
  let yoe := (doe - doe / 1460 + doe / 36524 - doe / 146096) / 365 in
  let doy := doe - (365 * yoe + yoe / 4 - yoe / 100) in
  let mp := (5 * doy + 2) / 153 in
  let d := doy - (153 * mp + 2) / 5 + 1 in
  let m := if mp <? 10 then mp + 3 else mp - 9 in
  (yoe + era * 400 + (if m <=? 2 then 1 else 0), m, d).

(** Day number of a calendar date. *)
Definition days_from_civil (year month day : Z) : Z :=
  let y := if month <=? 2 then year - 1 else year in
  let era := y / 400 in
  let yoe := y - era * 400 in
  let doy := (153 * (if 2 <? month then month - 3 else month + 9) + 2) / 5
             + day - 1 in
  let doe := yoe * 365 + yoe / 4 - yoe / 100 + doy in
  era * 146097 + doe - 719468.

Definition YearFromTime (t : Z) : Z := (civil_from_days (Day t)).1.1.
(** Months count from 0, as in the standard. *)
Definition MonthFromTime (t : Z) : Z := (civil_from_days (Day t)).1.2 - 1.
Definition DateFromTime (t : Z) : Z := (civil_from_days (Day t)).2.

(** [MakeDay]: the day number of the first of the month, moved by [date - 1];
    a [date] past the end of the month runs over into the next. *)
Definition MakeDay (year month date : Z) : Z :=
  let ym := year + month / 12 in
  let mn := month mod 12 in
  days_from_civil ym (mn + 1) 1 + date - 1.

Definition MakeDate (day time : Z) : Z := day * msPerDay + time.

Definition LocalTime (w : World) (t : Z) : Z := t + LocalTZA w t true.
Definition UTC (w : World) (t : Z) : Z := t - LocalTZA w t false.

(** [d.getDate()]: day of the month in local time. *)
Definition getDate (w : World) (t : Z) : Z := DateFromTime (LocalTime w t).

(** [d.setDate(date)]: the time value [d] holds afterwards. *)
Definition setDate (w : World) (t date : Z) : Z :=
  let lt := LocalTime w t in
  UTC w (MakeDate (MakeDay (YearFromTime lt) (MonthFromTime lt) date)
                  (TimeWithinDay lt)).

Fixpoint zeros (n : nat) : string :=
  match n with
  | O => EmptyString
  | S k => String "0" (zeros k)
  end.

(** A non-negative number in at least [width] digits. *)
Definition pad (width : nat) (n : Z) : string :=
  let digits := pretty n in
  zeros (width - String.length digits) +:+ digits.

(** The date part of the ISO format: four digits for the years 0 to 9999, a
    sign and six digits otherwise. *)
Definition iso_year (y : Z) : string :=
  if (0 <=? y) && (y <=? 9999) then pad 4 y
  else (if y <? 0 then "-" else "+") +:+ pad 6 (Z.abs y).

(** [d.toISOString()]: always UTC. *)
Definition toISOString (t : Z) : string :=
  let ms := TimeWithinDay t in
  iso_year (YearFromTime t) +:+ "-" +:+ pad 2 (MonthFromTime t + 1) +:+ "-"
  +:+ pad 2 (DateFromTime t) +:+ "T" +:+ pad 2 (ms / 3600000) +:+ ":"
  +:+ pad 2 (ms / 60000 mod 60) +:+ ":" +:+ pad 2 (ms / 1000 mod 60) +:+ "."
  +:+ pad 3 (ms mod 1000) +:+ "Z".

(** [s.split("T")[0]]: what comes before the first [T]. *)
Fixpoint split_T_0 (s : string) : string :=
  match s with
  | EmptyString => EmptyString
  | String c rest =>
      if Ascii.eqb c "T"%char then EmptyString else String c (split_T_0 rest)
  end.

(** ** [encodeURIComponent] *)

Definition hex_digit (n : N) : ascii :=
  match n with
  | 0 => "0" | 1 => "1" | 2 => "2" | 3 => "3" | 4 => "4" | 5 => "5"
  | 6 => "6" | 7 => "7" | 8 => "8" | 9 => "9" | 10 => "A" | 11 => "B"
  | 12 => "C" | 13 => "D" | 14 => "E" | _ => "F"
  end%char%N.

(** Letters, digits and [- _ . ! ~ * ' ( )] stay as they are. *)
Definition uri_unreserved (c : ascii) : bool :=
  let n := N_of_ascii c in
  ((65 <=? n) && (n <=? 90) || (97 <=? n) && (n <=? 122)
   || (48 <=? n) && (n <=? 57)
   || bool_decide (n ∈ [45; 95; 46; 33; 126; 42; 39; 40; 41]))%N.

(** Every other byte becomes a percent sign and two hexadecimal digits.  The
    argument is text in UTF-8; a JavaScript string with an unpaired surrogate,
    on which the built-in raises a URIError, has no such encoding and is not
    among the inputs considered. *)
Fixpoint encodeURIComponent (s : string) : string :=
  match s with
  | EmptyString => EmptyString
  | String c rest =>
      (if uri_unreserved c then String c EmptyString
       else String "%" (String (hex_digit (N_of_ascii c / 16))
              (String (hex_digit (N_of_ascii c mod 16)) EmptyString)))
      +:+ encodeURIComponent rest
  end.

(** ** [getWeather] *)

Record CurrentWeather : Type := {
  cw_temperature : value;
  cw_weatherDescription : value;
  cw_iconClass : value
}.

Record ForecastDay : Type := {
  fd_date : value;
  fd_maxTemp : value;
  fd_minTemp : value;
  fd_sunrise : value;
  fd_sunset : value;
  fd_weatherDescription : value;
  fd_iconClass : value
}.

Record WeatherReport : Type := {
  city : value;
  currentWeather : CurrentWeather;
  forecast : list ForecastDay
}.

(** [weatherIcons[code] || {...}]; turning [code] into a key may throw. *)
Definition lookup_or_fallback (code : value) : M Resolved :=
  lift_option (engine_error TypeError NotPrimitive) (resolve code).

(** [x === 0] *)
Definition is_zero (x : value) : bool :=
  match x with
  | VNum t => String.eqb t "0"
  | _ => false
  end.

(** [const { a, b } = v] reads nothing from null or undefined. *)
Definition destructurable (v : value) (first_field : string) : M unit :=
  if nullish v
  then throw (engine_error TypeError (ReadOfNullish first_field))
  else ret tt.

(** The callback [f] applied to the elements from index [i] on. *)
Fixpoint map_from {B} (f : value -> nat -> M B) (i : nat) (l : list value)
  : M (list B) :=
  match l with
  | [] => ret []
  | x :: rest =>
      y <- f x i ;;
      ys <- map_from f (S i) rest ;;
      ret (y :: ys)
  end.

(** [arr.map(f)]: only an array has the method. *)
Definition array_map {B} (arr : value) (f : value -> nat -> M B)
  : M (list B) :=
  match arr with
  | VUndefined | VNull => throw (engine_error TypeError (ReadOfNullish "map"))
  | VArr elems => map_from f 0%nat elems
  | _ => throw (engine_error TypeError (NotAFunction "map"))
  end.

Definition new_Date : M Z := fun st => (st, Returned (now st)).

Definition geocode_failure : string :=
  "Failed to fetch geocode data. Please try again later.".
Definition weather_failure : string :=
  "Failed to fetch weather data. Please try again later.".

Definition geocodeUrl (city : string) : string :=
  "https://geocoding-api.open-meteo.com/v1/search?name="
  +:+ encodeURIComponent city.

Definition weatherUrl (latitude longitude startDate endDate : string)
  : string :=
  "https://api.open-meteo.com/v1/forecast?latitude=" +:+ latitude
  +:+ "&longitude=" +:+ longitude
  +:+ "&current_weather=true"
  +:+ "&daily=weathercode,temperature_2m_max,temperature_2m_min,sunrise,sunset"
  +:+ "&timezone=auto&start_date=" +:+ startDate
  +:+ "&end_date=" +:+ endDate.

(** The callback of [weatherData.daily.time.map]. *)
Definition forecast_day (daily : value) (date : value) (index : nat)
  : M ForecastDay :=
  fcWeatherCode <- element (get_field daily "weathercode") index ;;
  fcWeatherInfo <- lookup_or_fallback fcWeatherCode ;;
  maxTemp <- element (get_field daily "temperature_2m_max") index ;;
  minTemp <- element (get_field daily "temperature_2m_min") index ;;
  sunrise <- element (get_field daily "sunrise") index ;;
  sunset <- element (get_field daily "sunset") index ;;
  ret {| fd_date := date;
         fd_maxTemp := maxTemp;
         fd_minTemp := minTemp;
         fd_sunrise := sunrise;
         fd_sunset := sunset;
         fd_weatherDescription := r_description fcWeatherInfo;
         fd_iconClass := r_iconClass fcWeatherInfo |}.

(** Steps 4 to 7 of [getWeather]: from the decoded forecast answer to the
    report. *)
Definition assemble (name_ : value) (weatherData : value) : M WeatherReport :=
  current_weather <- member weatherData "current_weather" ;;
  if negb (truthy current_weather)
  then throw (new_Error (Msg "Current weather data not available at the moment."))
  else
  let daily := get_field weatherData "daily" in
  if negb (truthy daily)
  then throw (new_Error (Msg "Forecast data not available at the moment."))
  else
  let temperature := get_field current_weather "temperature" in
  let weathercode := get_field current_weather "weathercode" in
  currentWeatherInfo <- lookup_or_fallback weathercode ;;
  forecastArray <- array_map (get_field daily "time") (forecast_day daily) ;;
  ret {| city := name_;
         currentWeather :=
           {| cw_temperature := temperature;
              cw_weatherDescription := r_description currentWeatherInfo;
              cw_iconClass := r_iconClass currentWeatherInfo |};
         forecast := forecastArray |}.

(** Step 2: the two dates of the request, from the time value [today]. *)
Definition startDate_of (today : Z) : string := split_T_0 (toISOString today).
Definition endDate_of (w : World) (today : Z) : string :=
  split_T_0 (toISOString (setDate w today (getDate w today + 4))).

(** Steps 1 to 3: from the city to the geocoder's name for it and the decoded
    forecast answer. *)
Definition request_forecast (w : World) (city_ : string) : M (value * value) :=
  geocodeData <- fetchJSON w (geocodeUrl city_) geocode_failure 5000 ;;
  results <- member geocodeData "results" ;;
  if negb (truthy results) || is_zero (get_field results "length")
  then throw (new_Error (Msg "City not found. Please enter a valid city name."))
  else
  let first := get_index results 0 in
  destructurable first "latitude" ;;;
  let latitude := get_field first "latitude" in
  let longitude := get_field first "longitude" in
  let name_ := get_field first "name" in
  today <- new_Date ;;
  let startDate := startDate_of today in
  let endDate := endDate_of w today in
  latitude_text <- template latitude ;;
  longitude_text <- template longitude ;;
  weatherData <-
    fetchJSON w (weatherUrl latitude_text longitude_text startDate endDate)
              weather_failure 5000 ;;
  ret (name_, weatherData).

Definition getWeather (w : World) (city_ : string) : M WeatherReport :=
  if negb (truthy (VStr city_))
  then throw (new_Error (Msg "City name is required."))
  else
  try_catch
    (found <- request_forecast w city_ ;;
     assemble found.1 found.2)
    (fun error => throw (new_Error (message error))).

(** ** The submit listener *)

(** The code points [String.prototype.trim] removes (white space and line
    terminators), each in its UTF-8 encoding: tab, line feed, vertical tab,
    form feed, carriage return, space, U+00A0, U+1680, U+2000 to U+200A,
    U+2028, U+2029, U+202F, U+205F, U+3000 and U+FEFF. *)
Definition bytes (codes : list nat) : string :=
  String.string_of_list_ascii (ascii_of_nat <$> codes).

Definition white_space : list string :=
  bytes <$>
    [ [9]; [10]; [11]; [12]; [13]; [32]; [194; 160]; [225; 154; 128];
      [226; 128; 128]; [226; 128; 129]; [226; 128; 130]; [226; 128; 131];
      [226; 128; 132]; [226; 128; 133]; [226; 128; 134]; [226; 128; 135];
      [226; 128; 136]; [226; 128; 137]; [226; 128; 138]; [226; 128; 168];
      [226; 128; 169]; [226; 128; 175]; [226; 129; 159]; [227; 128; 128];
      [239; 187; 191] ]%nat.

Fixpoint strip_prefix (p s : string) : option string :=
  match p with
  | EmptyString => Some s
  | String a p' =>
      match s with
      | EmptyString => None
      | String b s' => if Ascii.eqb a b then strip_prefix p' s' else None
      end
  end.

(** What is left of [s] once one of the [patterns] is taken off its front. *)
Fixpoint strip_any (patterns : list string) (s : string) : option string :=
  match patterns with
  | [] => None
  | p :: others =>
      match strip_prefix p s with
      | Some rest => Some rest
      | None => strip_any others s
      end
  end.

Fixpoint strip_all (patterns : list string) (fuel : nat) (s : string)
  : string :=
  match fuel with
  | O => s
  | S k =>
      match strip_any patterns s with
      | Some rest => strip_all patterns k rest
      | None => s
      end
  end.

Definition trimStart (s : string) : string :=
  strip_all white_space (String.length s) s.

Definition trimEnd (s : string) : string :=
  String.rev
    (strip_all (String.rev <$> white_space) (String.length s) (String.rev s)).

Definition trim (s : string) : string := trimEnd (trimStart s).

Definition dq : string := String dquote EmptyString.
Definition nl : string := String (ascii_of_nat 10) EmptyString.

Definition message_text (w : World) (m : msg) : string :=
  match m with
  | Msg s => s
  | EngineMsg f => engine_text w f
  end.

(** [new Date(v).toLocaleTimeString([], { hour: '2-digit', minute: '2-digit' })] *)
Definition time_of_day (w : World) (v : value) : M string :=
  lift_option (engine_error TypeError NotPrimitive) (toLocaleTimeString w v).

(** The template literal appended for the current conditions. *)
Definition current_markup (cw : CurrentWeather) : M string :=
  iconClass_ <- template (cw_iconClass cw) ;;
  temperature <- template (cw_temperature cw) ;;
  weatherDescription <- template (cw_weatherDescription cw) ;;
  ret (
    nl +:+ "      <div class=" +:+ dq +:+ "current-weather" +:+ dq +:+ ">"
    +:+ nl +:+ "        <i class=" +:+ dq +:+ "wi " +:+ iconClass_ +:+ dq
    +:+ " style=" +:+ dq +:+ "font-size: 80px;" +:+ dq +:+ "></i>" +:+ nl
    +:+ "        <p>Temperature: " +:+ temperature +:+ "°C</p>" +:+ nl
    +:+ "        <p>Conditions: " +:+ weatherDescription +:+ "</p>" +:+ nl
    +:+ "      </div>" +:+ nl +:+ "    ").

(** The template literal appended for one day of the forecast. *)
Definition day_markup (w : World) (day : ForecastDay) : M string :=
  date <- template (fd_date day) ;;
  iconClass_ <- template (fd_iconClass day) ;;
  maxTemp <- template (fd_maxTemp day) ;;
  minTemp <- template (fd_minTemp day) ;;
  sunrise <- time_of_day w (fd_sunrise day) ;;
  sunset <- time_of_day w (fd_sunset day) ;;
  weatherDescription <- template (fd_weatherDescription day) ;;
  ret (
    nl +:+ "        <div class=" +:+ dq +:+ "forecast-day" +:+ dq +:+ ">"
    +:+ nl +:+ "          <h4>" +:+ date +:+ "</h4>" +:+ nl
    +:+ "          <i class=" +:+ dq +:+ "wi " +:+ iconClass_ +:+ dq
    +:+ " style=" +:+ dq +:+ "font-size: 48px;" +:+ dq +:+ "></i>" +:+ nl
    +:+ "          <p>Max: " +:+ maxTemp +:+ "°C, Min: " +:+ minTemp
    +:+ "°C</p>" +:+ nl +:+ "          <p>Sunrise: " +:+ sunrise +:+ "</p>"
    +:+ nl +:+ "          <p>Sunset: " +:+ sunset +:+ "</p>" +:+ nl
    +:+ "          <p>" +:+ weatherDescription +:+ "</p>" +:+ nl
    +:+ "        </div>" +:+ nl +:+ "      ").

(** [weatherData.forecast.forEach(day => { html += ... })] *)
Fixpoint forEach_day (w : World) (days : list ForecastDay) (html : string)
  : M string :=
  match days with
  | [] => ret html
  | day :: rest =>
      piece <- day_markup w day ;;
      forEach_day w rest (html +:+ piece)
  end.

(** The markup built inside the [try] block of the listener. *)
Definition build_html (w : World) (weatherData : WeatherReport) : M string :=
  safeCity <- escapeHtml (city weatherData) ;;
  let html := "<h2>Weather in " +:+ safeCity +:+ "</h2>" in
  current <- current_markup (currentWeather weatherData) ;;
  let html := html +:+ current in
  let html := html +:+ "<h3>5-Day Forecast</h3>" in
  let html := html +:+ "<div class=" +:+ dq +:+ "forecast-container" +:+ dq
                   +:+ ">" in
  html <- forEach_day w (forecast weatherData) html ;;
  ret (html +:+ "</div>").

Definition show (d : Display) : M unit :=
  fun st =>
    ({| now := now st; timer := timer st; requests := requests st;
        resultDiv := d |}, Returned tt).

(** The listener, given the content of the input field. *)
Definition on_submit (w : World) (cityInput_value : string) : M unit :=
  let cityInput := trim cityInput_value in
  show (TextContent "Loading...") ;;;
  try_catch
    (weatherData <- getWeather w cityInput ;;
     html <- build_html w weatherData ;;
     show (InnerHTML html))
    (fun error =>
       show (TextContent ("Error: " +:+ message_text w (message error)))).

(** ** Vocabulary of the statements *)

(** Characters a printed integer is made of. *)
Definition is_digit_or_dash (c : ascii) : bool :=
  let n := N_of_ascii c in
  ((48 <=? n) && (n <=? 57) || (n =? 45))%N.

(** The state a call of [fetchJSON] on [url] leaves behind when it ends at
    time [t]: the request is on record and no timer is armed. *)
Definition settled (st : State) (url : string) (t : Z) : State :=
  {| now := t; timer := None; requests := requests st ++ [url];
     resultDiv := resultDiv st |}.

(** What [fetchJSON] comes to for each behaviour of the network. *)
Definition fetchJSON_outcome (x : Exchange) (errorMessage : string)
    (timeout : Z) (st : State) (url : string) : State * Outcome value :=
  let timed_out :=
    (settled st url (Z.max (now st) (now st + timer_delay timeout)),
     Threw (new_Error (Msg timeout_message))) in
  let failed t :=
    (settled st url (now st + t), Threw (new_Error (Msg errorMessage))) in
  match x with
  | Silent => timed_out
  | Unreachable t =>
      if bool_decide (timer_delay timeout <= t) then timed_out else failed t
  | Response t ok body =>
      if bool_decide (timer_delay timeout <= t) then timed_out
      else if negb ok then failed t
      else
        match body with
        | BodyJson d v => (settled st url (now st + t + d), Returned v)
        | BodyInvalid d => failed (t + d)
        | BodyStalled => (settled st url (now st + t), Pending)
        end
  end.

(** The entry the callback builds for [date] at [index], given what the table
    gave for the code of that day. *)
Definition day_of (daily date : value) (index : nat) (info : Resolved)
  : ForecastDay :=
  {| fd_date := date;
     fd_maxTemp := get_index (get_field daily "temperature_2m_max") index;
     fd_minTemp := get_index (get_field daily "temperature_2m_min") index;
     fd_sunrise := get_index (get_field daily "sunrise") index;
     fd_sunset := get_index (get_field daily "sunset") index;
     fd_weatherDescription := r_description info;
     fd_iconClass := r_iconClass info |}.

(** The five arrays the callback indexes are there. *)
Definition indexable (daily : value) : Prop :=
  Forall (fun field => nullish (get_field daily field) = false)
    ["weathercode"; "temperature_2m_max"; "temperature_2m_min"; "sunrise";
     "sunset"].

(** [getWeather] on a non-empty city: whatever steps 1 to 3 and then steps 4
    to 7 come to, with the catch-all rethrow applied. *)
Definition rethrown {A} (r : State * Outcome A) : State * Outcome A :=
  match r with
  | (st, Threw e) => (st, Threw (new_Error (message e)))
  | other => other
  end.

(** The fallback entry as the specification words it. *)
Definition spec_fallback : Resolved :=
  {| r_description := VStr "Unknown condition";
     r_iconClass := VStr "not-available" |}.

(** A string made of nothing but white space and line terminators. *)
Inductive whitespace_only : string -> Prop :=
  | ws_empty : whitespace_only EmptyString
  | ws_more (blank rest : string) :
      blank ∈ white_space -> whitespace_only rest ->
      whitespace_only (blank +:+ rest).

(** A value [ToString] accepts. *)
Definition printable (v : value) : Prop := is_Some (to_string v).

(** The six arrays of the [daily] block of a forecast answer. *)
Record daily_arrays (weatherData : value)
    (times codes maxs mins rises sets : list value) : Prop := {
  da_time : get_field (get_field weatherData "daily") "time" = VArr times;
  da_weathercode :
    get_field (get_field weatherData "daily") "weathercode" = VArr codes;
  da_max :
    get_field (get_field weatherData "daily") "temperature_2m_max" = VArr maxs;
  da_min :
    get_field (get_field weatherData "daily") "temperature_2m_min" = VArr mins;
  da_sunrise : get_field (get_field weatherData "daily") "sunrise" = VArr rises;
  da_sunset : get_field (get_field weatherData "daily") "sunset" = VArr sets
}.

(** The current block is there and its code can be used as a key. *)
Record current_block (weatherData : value) : Prop := {
  cb_present : truthy (get_field weatherData "current_weather") = true;
  cb_code :
    printable (get_field (get_field weatherData "current_weather") "weathercode")
}.

(** A forecast answer of the documented shape: a current block, and six
    parallel arrays of one length whose codes are Numbers. *)
Record well_formed_forecast (weatherData : value)
    (times codes maxs mins rises sets : list value) : Prop := {
  wf_current : current_block weatherData;
  wf_daily : daily_arrays weatherData times codes maxs mins rises sets;
  wf_parallel :
    Forall (fun l : list value => length l = length times)
      [codes; maxs; mins; rises; sets];
  wf_codes : Forall printable codes
}.



(** The characters that open or close markup or an attribute value. *)
Definition markup_char (c : ascii) : bool :=
  Ascii.eqb c "<" || Ascii.eqb c ">" || Ascii.eqb c dquote || Ascii.eqb c "'".

Fixpoint string_forall (p : ascii -> bool) (s : string) : bool :=
  match s with
  | EmptyString => true
  | String c rest => p c && string_forall p rest
  end.

(** [needle] occurs in [s]. *)
Fixpoint contains (needle s : string) : bool :=
  if String.prefix needle s then true
  else match s with
       | EmptyString => false
       | String _ rest => contains needle rest
       end.

(** ** Scenarios *)

Definition midnight_2024 : Z := 1704067200000.  (* 2024-01-01T00:00:00Z *)

(** A browser one hour ahead of UTC that starts at 2024-01-01T22:00:00Z with
    an empty result area. *)
Definition initial : State :=
  {| now := midnight_2024 + 22 * 3600000; timer := None; requests := [];
     resultDiv := TextContent EmptyString |}.

Definition hour_and_minute (v : value) : option string :=
  match v with
  | VStr s => Some (String.substring 11 5 s)
  | _ => Some "Invalid Date"
  end.

Definition forecast_host : string := "https://api.open-meteo.com/v1/forecast?".

(** A network that answers the geocoding request for [city_] with [geocode]
    and any forecast request with [forecast_], both quickly, and nothing
    else. *)
Definition serving (city_ : string) (geocode forecast_ : value) (offset : Z)
  : World :=
  {| net := fun url =>
       if String.eqb url (geocodeUrl city_)
       then Response 120 true (BodyJson 30 geocode)
       else if String.prefix forecast_host url
       then Response 200 true (BodyJson 20 forecast_)
       else Unreachable 10;
     LocalTZA := fun _ _ => offset;
     engine_text := fun _ => "TypeError";
     toLocaleTimeString := hour_and_minute |}.

(** The end-to-end scenario of the specification. *)
Definition paris_geocode : value :=
  VObj [("results",
         VArr [VObj [("latitude", VNum "48.8566"); ("longitude", VNum "2.3522");
                     ("name", VStr "Paris")]])].

Definition five_days (times : list value) : value :=
  VObj [("current_weather",
         VObj [("temperature", VNum "18.4"); ("weathercode", VInt 2)]);
        ("daily",
         VObj [("time", VArr times);
               ("weathercode", VArr [VInt 2; VInt 3; VInt 61; VInt 4; VInt 0]);
               ("temperature_2m_max",
                VArr [VNum "19.1"; VNum "20"; VNum "17.5"; VNum "16"; VNum "21.3"]);
               ("temperature_2m_min",
                VArr [VNum "9.1"; VNum "10"; VNum "7.5"; VNum "6"; VNum "11.3"]);
               ("sunrise",
                VArr [VStr "2024-01-01T08:43"; VStr "2024-01-02T08:43";
                      VStr "2024-01-03T08:43"; VStr "2024-01-04T08:43";
                      VStr "2024-01-05T08:43"]);
               ("sunset",
                VArr [VStr "2024-01-01T17:04"; VStr "2024-01-02T17:05";
                      VStr "2024-01-03T17:06"; VStr "2024-01-04T17:07";
                      VStr "2024-01-05T17:08"])])].

Definition paris_times : list value :=
  [VStr "2024-01-01"; VStr "2024-01-02"; VStr "2024-01-03"; VStr "2024-01-04";
   VStr "2024-01-05"].

Definition paris_forecast : value := five_days paris_times.

Definition paris_world : World :=
  serving "Paris" paris_geocode paris_forecast 3600000.

(** A forecast service whose body is the JSON text [null]. *)
Definition null_forecast : value := VNull.

(** A forecast answer with no current block, and one whose daily block has no
    [time] array. *)
Definition no_current_block : value :=
  VObj [("daily", VObj [("time", VArr paris_times)])].

Definition no_time_array : value :=
  VObj [("current_weather",
         VObj [("temperature", VNum "18.4"); ("weathercode", VInt 2)]);
        ("daily", VObj [("weathercode", VArr [VInt 2; VInt 3])])].

(** A forecast answer whose arrays disagree in length: three dates, one code,
    no maximum, five minima. *)
Definition ragged_forecast : value :=
  VObj [("current_weather",
         VObj [("temperature", VNum "18.4"); ("weathercode", VInt 2)]);
        ("daily",
         VObj [("time", VArr [VStr "2024-01-01"; VStr "2024-01-02";
                              VStr "2024-01-03"]);
               ("weathercode", VArr [VInt 3]);
               ("temperature_2m_max", VArr []);
               ("temperature_2m_min",
                VArr [VNum "9.1"; VNum "10"; VNum "7.5"; VNum "6"; VNum "11.3"]);
               ("sunrise", VArr [VStr "2024-01-01T08:43"]);
               ("sunset", VArr [VStr "2024-01-01T17:04"; VNull; VNull;
                                VObj [("toString", VNull)]])])].

(** The state [getWeather] ends in, in these scenarios. *)
Definition after_both (city_ : string) : State :=
  {| now := now initial + 370; timer := None;
     requests :=
       [geocodeUrl city_;
        weatherUrl "48.8566" "2.3522" "2024-01-01" "2024-01-05"];
     resultDiv := TextContent EmptyString |}.

(** A network that treats every request the same way, in a browser on UTC. *)
Definition answering (x : Exchange) : World :=
  {| net := fun _ => x;
     LocalTZA := fun _ _ => 0;
     engine_text := fun _ => "TypeError";
     toLocaleTimeString := hour_and_minute |}.

(** A response whose head arrives after 100 ms and whose body takes ten more
    seconds. *)
Definition slow_body : Exchange :=
  Response 100 true (BodyJson 10000 (VObj [])).

(** The current date on the wall clock of the browser, in the format of the
    request: what the specification calls the current local date. *)
Definition local_date (w : World) (t : Z) : string :=
  split_T_0 (toISOString (LocalTime w t)).

(** Brisbane, ten hours ahead of UTC all year. *)
Definition brisbane_geocode : value :=
  VObj [("results",
         VArr [VObj [("latitude", VNum "-27.4679");
                     ("longitude", VNum "153.0281");
                     ("name", VStr "Brisbane")]])].

Definition brisbane_world : World :=
  serving "Brisbane" brisbane_geocode paris_forecast 36000000.

(** New York around the start of daylight saving time in 2024: five hours
    behind UTC until 2024-03-10T07:00:00Z (02:00 on the local clock), four
    hours behind from then on.  A local time in the hour the clock skips
    (02:00 to 03:00) is read with the offset in force before the change. *)
Definition new_york_geocode : value :=
  VObj [("results",
         VArr [VObj [("latitude", VNum "40.7143");
                     ("longitude", VNum "-74.006");
                     ("name", VStr "New York")]])].

Definition new_york_world : World :=
  {| net := net (serving "New York" new_york_geocode paris_forecast 0);
     LocalTZA := fun t isUTC =>
       if t <? (if isUTC then 1710054000000 else 1710039600000)
       then -18000000 else -14400000;
     engine_text := fun _ => "TypeError";
     toLocaleTimeString := hour_and_minute |}.

(** 2024-03-09T00:30:00Z, which is 19:30 on March 8 in New York. *)
Definition new_york_evening : State :=
  {| now := 1709944200000 - 150; timer := None; requests := [];
     resultDiv := TextContent EmptyString |}.

(** A geocoder and a forecast service that answer with markup in their
    strings. *)
Definition script_geocode : value :=
  VObj [("results",
         VArr [VObj [("latitude", VNum "48.8566"); ("longitude", VNum "2.3522");
                     ("name", VStr "<script>alert(1)</script>")]])].

Definition script_forecast : value :=
  five_days (VStr "<script>alert(2)</script>" :: tail paris_times).

Definition script_world : World :=
  serving "<script>alert(1)</script>" script_geocode script_forecast 3600000.

(** The markup on display, if any. *)
Definition displayed_html (st : State) : option string :=
  match resultDiv st with
  | InnerHTML html => Some html
  | TextContent _ => None
  end.

(** ** Vocabulary of the further properties *)

(** The five characters [escapeHtml] replaces. *)
Definition replaced_char (c : ascii) : bool :=
  Ascii.eqb c "&" || markup_char c.

(** What the table expression yields for an entry of the table. *)
Definition resolved_entry (info : ConditionInfo) : Resolved :=
  {| r_description := VStr (description info);
     r_iconClass := VStr (iconClass info) |}.

(** What it yields when the key names an inherited member. *)
Definition resolved_inherited : Resolved :=
  {| r_description := VUndefined; r_iconClass := VUndefined |}.


(** The characters that may stand in an encoded URI component. *)
Definition uri_safe (c : ascii) : bool :=
  uri_unreserved c || Ascii.eqb c "%".

Definition is_digit (c : ascii) : bool :=
  let n := N_of_ascii c in ((48 <=? n) && (n <=? 57))%N.

(** The shape YYYY-MM-DD: ten characters, digits but for the two dashes. *)
Definition date_shaped (s : string) : bool :=
  match String.list_ascii_of_string s with
  | [y1; y2; y3; y4; d1; m1; m2; d2; a1; a2] =>
      forallb is_digit [y1; y2; y3; y4; m1; m2; a1; a2]
      && Ascii.eqb d1 "-" && Ascii.eqb d2 "-"
  | _ => false
  end.

(** [p] holds of 0, 1, ..., [n - 1]. *)
Fixpoint forall_below (n : nat) (p : Z -> bool) : bool :=
  match n with
  | O => true
  | S k => p (Z.of_nat k) && forall_below k p
  end.

(** The page once the listener has put its first text up. *)
Definition loading (st : State) : State :=
  {| now := now st; timer := timer st; requests := requests st;
     resultDiv := TextContent "Loading..." |}.

Definition displaying (d : Display) (st : State) : State :=
  {| now := now st; timer := timer st; requests := requests st;
     resultDiv := d |}.

(** A geocoder whose first result has no name. *)
Definition nameless_geocode : value :=
  VObj [("results",
         VArr [VObj [("latitude", VNum "48.8566");
                     ("longitude", VNum "2.3522")]])].

(** A geocoder that finds nothing. *)
Definition empty_geocode : value := VObj [("results", VArr [])].

(** A forecast answer with a current block and no daily block. *)
Definition no_daily_block : value :=
  VObj [("current_weather",
         VObj [("temperature", VNum "18.4"); ("weathercode", VInt 2)])].


(** [s] is [n] decimal digits. *)
Definition digits (n : nat) (s : string) : bool :=
  Nat.eqb (String.length s) n && string_forall is_digit s.

(** The Paris scenario with two more matches behind the first. *)
Definition crowded_geocode : value :=
  VObj [("results",
         VArr [VObj [("latitude", VNum "48.8566"); ("longitude", VNum "2.3522");
                     ("name", VStr "Paris")];
               VObj [("latitude", VNum "33.6609"); ("longitude", VNum "-95.5555");
                     ("name", VStr "Paris")];
               VNull])].

(** * Properties *)

(** ** The lookup table *)


Lemma pretty_N_char_digit (x : N) : is_digit_or_dash (pretty_N_char x) = true.
Proof. unfold pretty_N_char. by repeat case_match. Qed.

Lemma pretty_N_go_head (x : N) (s : string) :
  (0 < x)%N ->
  exists c rest, pretty_N_go x s = String c rest /\ is_digit_or_dash c = true.
Proof.
  revert s. induction (N.lt_wf_0 x) as [x _ IH]. intros s Hx.
  rewrite pretty_N_go_step by done.
  destruct (decide (x `div` 10 = 0)%N) as [Hz | Hz].
  - rewrite Hz, pretty_N_go_0. eauto using pretty_N_char_digit.
  - apply IH; [by apply N.div_lt | by apply N.neq_0_lt_0].
Qed.

Lemma pretty_Z_head (z : Z) :
  exists c rest, pretty z = String c rest /\ is_digit_or_dash c = true.
Proof.
  destruct z as [| p | p].
  - by exists "0"%char, EmptyString.
  - change (pretty (Z.pos p)) with (pretty (N.pos p)).
    unfold pretty, pretty_N. rewrite decide_False by done.
    by apply pretty_N_go_head.
  - exists "-"%char, (pretty p). split; reflexivity.
Qed.

Lemma pretty_Z_not_inherited (z : Z) : pretty z ∉ object_prototype_names.
Proof.
  destruct (pretty_Z_head z) as (c & rest & -> & Hc). intros Hin.
  unfold object_prototype_names in Hin.
  repeat (apply elem_of_cons in Hin as [Hin | Hin];
          [injection Hin as -> _; discriminate Hc |]).
  by apply elem_of_nil in Hin.
Qed.

Lemma table_unknown (entries : list (Z * ConditionInfo)) (z : Z) :
  z ∉ entries.*1 ->
  (list_to_map (prod_map pretty id <$> entries) : gmap string ConditionInfo)
    !! pretty z = None.
Proof.
  intros Hz. apply not_elem_of_list_to_map_1.
  rewrite <- list_fmap_compose. intros Hin.
  apply list_elem_of_fmap in Hin as ([k info] & Hk & Hin). simpl in Hk.
  apply (inj pretty) in Hk as ->. apply Hz.
  apply list_elem_of_fmap. exists (k, info).
  split; [reflexivity | exact Hin].
Qed.

Lemma weatherIcons_unknown (z : Z) :
  z ∉ known_codes -> weatherIcons !! pretty z = None.
Proof. exact (table_unknown weatherIcons_entries z). Qed.

(** A Number whose text is neither a key of the table nor the name of an
    inherited member gets the fallback; every finite Number is of that kind
    unless it is a known code, since its text begins with a digit or a minus
    sign. *)
Lemma resolve_unlisted (text : string) :
  weatherIcons !! text = None ->
  text ∉ object_prototype_names ->
  resolve (VNum text) = Some fallback.
Proof.
  intros Hkey Hname.
  change (resolve (VNum text))
    with (Some (or_fallback (weatherIcons_key text))).
  unfold weatherIcons_key. rewrite Hkey.
  by rewrite bool_decide_eq_false_2.
Qed.

Lemma resolve_unknown (z : Z) :
  z ∉ known_codes -> resolve (VInt z) = Some fallback.
Proof.
  intros Hz. apply resolve_unlisted.
  - by apply weatherIcons_unknown.
  - apply pretty_Z_not_inherited.
Qed.

(** ** Running the monad *)

Section Run.
Context {A B : Type}.
Implicit Types (m : M A) (k : A -> M B) (st : State).

Lemma bind_returned m k st st' a :
  m st = (st', Returned a) -> bind m k st = k a st'.
Proof. unfold bind. by intros ->. Qed.

Lemma bind_threw m k st st' e :
  m st = (st', Threw e) -> bind m k st = (st', Threw e).
Proof. unfold bind. by intros ->. Qed.

Lemma bind_pending m k st st' :
  m st = (st', Pending) -> bind m k st = (st', Pending).
Proof. unfold bind. by intros ->. Qed.

Lemma try_catch_returned m (h : exn -> M A) st st' a :
  m st = (st', Returned a) -> try_catch m h st = (st', Returned a).
Proof. unfold try_catch. by intros ->. Qed.

Lemma try_catch_threw m (h : exn -> M A) st st' e :
  m st = (st', Threw e) -> try_catch m h st = h e st'.
Proof. unfold try_catch. by intros ->. Qed.
End Run.

(** ** [fetchJSON], case by case *)


Lemma timer_delay_5000 : timer_delay 5000 = 5000.
Proof. reflexivity. Qed.

(** Within the 32-bit range the delay is the argument itself. *)
Lemma timer_delay_in_range (timeout : Z) :
  0 <= timeout < 2147483648 -> timer_delay timeout = timeout.
Proof.
  intros H. unfold timer_delay, ToInt32.
  rewrite Z.mod_small by lia. lia.
Qed.

Lemma deadline_passed (n timeout t : Z) :
  bool_decide (n + timeout <= n + t) = bool_decide (timeout <= t).
Proof. apply bool_decide_ext. lia. Qed.

Lemma fetchJSON_run (w : World) (url errorMessage : string) (timeout : Z)
    (st : State) :
  fetchJSON w url errorMessage timeout st
  = fetchJSON_outcome (net w url) errorMessage timeout st url.
Proof.
  unfold fetchJSON, fetchJSON_outcome, fetch, json, try_catch, bind,
    setTimeout_abort, clearTimeout, send, await_signal, throw, ret, settled,
    set_clock.
  destruct (net w url) as [t | | t ok body]; simpl;
    rewrite ?deadline_passed; try done.
  - by case_bool_decide.
  - case_bool_decide; [done |].
    destruct ok; simpl; [| done].
    destruct body as [d v | d |]; simpl; try done.
    by rewrite Z.add_assoc.
Qed.

(** ** Steps 4 to 7 *)


Lemma forecast_day_returns (daily date : value) (index : nat) (info : Resolved)
    (st : State) :
  indexable daily ->
  resolve (get_index (get_field daily "weathercode") index) = Some info ->
  forecast_day daily date index st
  = (st, Returned (day_of daily date index info)).
Proof.
  intros Hd Hinfo. unfold indexable in Hd.
  repeat (apply Forall_cons in Hd as [? Hd]).
  unfold forecast_day, element, lookup_or_fallback, lift_option, bind, ret.
  repeat match goal with H : nullish _ = false |- _ => rewrite H; clear H end.
  by rewrite Hinfo.
Qed.

Lemma map_from_returns (daily : value) (times : list value) (start : nat)
    (st : State) :
  indexable daily ->
  (forall i, (i < length times)%nat ->
     is_Some (resolve (get_index (get_field daily "weathercode") (start + i)))) ->
  exists days,
    map_from (forecast_day daily) start times st = (st, Returned days)
    /\ length days = length times
    /\ forall i date, times !! i = Some date ->
         exists info,
           resolve (get_index (get_field daily "weathercode") (start + i))
             = Some info
           /\ days !! i = Some (day_of daily date (start + i) info).
Proof.
  intros Hd. revert start.
  induction times as [| date times IH]; intros start Hcodes.
  - exists []. by repeat split.
  - destruct (Hcodes 0%nat) as [info Hinfo]; [simpl; lia |].
    rewrite Nat.add_0_r in Hinfo.
    destruct (IH (S start)) as (days & Hrun & Hlen & Hdays).
    { intros i Hi. replace (S start + i)%nat with (start + S i)%nat by lia.
      apply Hcodes. simpl. lia. }
    exists (day_of daily date start info :: days). split; [| split].
    + simpl. unfold bind.
      rewrite (forecast_day_returns _ _ _ info) by done.
      by rewrite Hrun.
    + simpl. by rewrite Hlen.
    + intros [| i] date' Hi; simpl in Hi.
      * injection Hi as <-. exists info. by rewrite Nat.add_0_r.
      * replace (start + S i)%nat with (S start + i)%nat by lia.
        by apply Hdays.
Qed.

(** The report [assemble] returns when the answer has a truthy current block
    and the mapping over [daily.time] went through. *)
Lemma assemble_returns (name_ weatherData : value) (times : list value)
    (info : Resolved) (days : list ForecastDay) (st : State) :
  let current_weather := get_field weatherData "current_weather" in
  let daily := get_field weatherData "daily" in
  nullish weatherData = false ->
  truthy current_weather = true ->
  truthy daily = true ->
  resolve (get_field current_weather "weathercode") = Some info ->
  get_field daily "time" = VArr times ->
  map_from (forecast_day daily) 0 times st = (st, Returned days) ->
  assemble name_ weatherData st
  = (st, Returned
           {| city := name_;
              currentWeather :=
                {| cw_temperature := get_field current_weather "temperature";
                   cw_weatherDescription := r_description info;
                   cw_iconClass := r_iconClass info |};
              forecast := days |}).
Proof.
  intros cw daily Hwd Hcw Hdaily Hinfo Htime Hrun.
  unfold assemble, member, bind, ret, lookup_or_fallback, lift_option.
  rewrite Hwd. fold cw. rewrite Hcw. simpl negb. cbv iota.
  fold daily. rewrite Hdaily. simpl negb. cbv iota.
  rewrite Hinfo. simpl. rewrite Htime. simpl. by rewrite Hrun.
Qed.


Lemma getWeather_steps (w : World) (city_ : string) (st st' : State)
    (name_ weatherData : value) :
  city_ <> EmptyString ->
  request_forecast w city_ st = (st', Returned (name_, weatherData)) ->
  getWeather w city_ st = rethrown (assemble name_ weatherData st').
Proof.
  intros Hcity Hreq. unfold getWeather.
  change (truthy (VStr city_)) with (negb (String.eqb city_ EmptyString)).
  apply String.eqb_neq in Hcity. rewrite Hcity.
  change (negb (negb false)) with false. cbv iota.
  unfold try_catch, bind. rewrite Hreq. simpl.
  unfold rethrown, throw. by destruct (assemble _ _ _) as [? [| |]].
Qed.

Lemma resolve_printable (v : value) : printable v -> is_Some (resolve v).
Proof.
  intros [key Hkey]. unfold resolve, weatherIcons_get. rewrite Hkey.
  by eexists.
Qed.

Lemma get_index_array (l : list value) (i : nat) :
  get_index (VArr l) i = default VUndefined (l !! i).
Proof. reflexivity. Qed.

(** Codes read at the indices of [times] can all be used as keys: inside
    [codes] by assumption, and past its end because the read gives
    [undefined]. *)
Lemma codes_resolve (times codes : list value) :
  (forall i c, (i < length times)%nat -> codes !! i = Some c -> printable c) ->
  forall i, (i < length times)%nat -> is_Some (resolve (get_index (VArr codes) i)).
Proof.
  intros Hcodes i Hi. apply resolve_printable. rewrite get_index_array.
  destruct (codes !! i) as [c |] eqn:Hc; simpl.
  - by apply (Hcodes i).
  - by eexists.
Qed.

(** The report [getWeather] returns once the forecast answer is in, provided
    the answer has a current block and the arrays the mapping reads. *)
Lemma getWeather_report (w : World) (city_ : string) (st st' : State)
    (name_ weatherData : value) (times : list value) :
  let current_weather := get_field weatherData "current_weather" in
  let daily := get_field weatherData "daily" in
  city_ <> EmptyString ->
  request_forecast w city_ st = (st', Returned (name_, weatherData)) ->
  current_block weatherData ->
  get_field daily "time" = VArr times ->
  indexable daily ->
  (forall i, (i < length times)%nat ->
     is_Some (resolve (get_index (get_field daily "weathercode") i))) ->
  exists r info,
    getWeather w city_ st = (st', Returned r)
    /\ city r = name_
    /\ resolve (get_field current_weather "weathercode") = Some info
    /\ currentWeather r
       = {| cw_temperature := get_field current_weather "temperature";
            cw_weatherDescription := r_description info;
            cw_iconClass := r_iconClass info |}
    /\ length (forecast r) = length times
    /\ forall i date, times !! i = Some date ->
         exists day_info,
           resolve (get_index (get_field daily "weathercode") i) = Some day_info
           /\ forecast r !! i = Some (day_of daily date i day_info).
Proof.
  intros cw daily Hcity Hreq [Hcw Hcode] Htime Hidx Hcodes.
  destruct (resolve_printable _ Hcode) as [info Hinfo].
  destruct (map_from_returns daily times 0 st' Hidx Hcodes)
    as (days & Hrun & Hlen & Hdays).
  assert (nullish weatherData = false) as Hwd.
  { subst daily. by destruct weatherData. }
  assert (truthy daily = true) as Hdaily.
  { by destruct daily. }
  exists {| city := name_;
            currentWeather :=
              {| cw_temperature := get_field cw "temperature";
                 cw_weatherDescription := r_description info;
                 cw_iconClass := r_iconClass info |};
            forecast := days |}, info.
  split; [| by repeat split].
  rewrite (getWeather_steps w city_ st st' name_ weatherData Hcity Hreq).
  by rewrite (assemble_returns name_ weatherData times info days st').
Qed.

Lemma arrays_indexable (weatherData : value)
    (times codes maxs mins rises sets : list value) :
  daily_arrays weatherData times codes maxs mins rises sets ->
  indexable (get_field weatherData "daily").
Proof.
  intros [_ Hcode Hmax Hmin Hrise Hset]. unfold indexable.
  repeat apply Forall_cons_2; [.. | apply Forall_nil_2].
  - by rewrite Hcode.
  - by rewrite Hmax.
  - by rewrite Hmin.
  - by rewrite Hrise.
  - by rewrite Hset.
Qed.

(** ** C1: codes outside the table *)

Ltac not_listed :=
  match goal with
  | |- ?x ∉ ?l =>
      apply (bool_decide_eq_false_1 (x ∈ l)); vm_compute; reflexivity
  end.

(** C1, as stated, fails: the code 4 is not in the table, and what the table
    expression yields for it is not the pair the specification names, whose
    icon identifier is "not-available". *)
Lemma C1_counterexample :
  (4 ∉ known_codes) /\ resolve (VInt 4) <> Some spec_fallback.
Proof.
  split.
  - not_listed.
  - intros H. vm_compute in H. discriminate H.
Qed.

(** C1, amended: for every integer code outside the known condition codes the
    table expression yields the fixed fallback with description
    "Unknown condition" and icon class "wi-na"; hence, in a run of getWeather
    on a well-formed forecast answer, a current code of that kind gives the
    report that description and icon class, and so does a daily code for its
    day. *)
Theorem C1_unknown_code_fallback (z : Z) :
  z ∉ known_codes ->
  resolve (VInt z) = Some fallback
  /\ r_description fallback = VStr "Unknown condition"
  /\ r_iconClass fallback = VStr "wi-na"
  /\ forall (w : World) (city_ : string) (st st' : State)
       (name_ weatherData : value) (times codes maxs mins rises sets : list value),
       city_ <> EmptyString ->
       request_forecast w city_ st = (st', Returned (name_, weatherData)) ->
       well_formed_forecast weatherData times codes maxs mins rises sets ->
       exists r,
         getWeather w city_ st = (st', Returned r)
         /\ (get_field (get_field weatherData "current_weather") "weathercode"
               = VInt z ->
             cw_weatherDescription (currentWeather r) = VStr "Unknown condition"
             /\ cw_iconClass (currentWeather r) = VStr "wi-na")
         /\ (forall i, codes !! i = Some (VInt z) ->
               exists day,
                 forecast r !! i = Some day
                 /\ fd_weatherDescription day = VStr "Unknown condition"
                 /\ fd_iconClass day = VStr "wi-na").
Proof.
  intros Hz. pose proof (resolve_unknown z Hz) as Hres.
  repeat split; try done.
  intros w city_ st st' name_ wd times codes maxs mins rises sets
    Hcity Hreq [Hcur Harrays Hpar Hcodes].
  pose proof (arrays_indexable _ _ _ _ _ _ _ Harrays) as Hidx.
  destruct Harrays as [Htime Hcode _ _ _ _].
  apply Forall_cons in Hpar as [Hpar _].
  destruct (getWeather_report w city_ st st' name_ wd times)
    as (r & info & Hrun & _ & Hinfo & Hcw & Hlen & Hdays); try done.
  { rewrite Hcode. apply codes_resolve. intros i c _ Hc.
    eapply Forall_lookup_1; eauto. }
  exists r. split; [done |]. split.
  - intros Hcurrent. rewrite Hcurrent, Hres in Hinfo.
    injection Hinfo as <-. by rewrite Hcw.
  - intros i Hi.
    destruct (lookup_lt_is_Some_2 times i) as [date Hdate].
    { apply lookup_lt_Some in Hi. lia. }
    destruct (Hdays i date Hdate) as (day_info & Hday & Hnth).
    rewrite Hcode, get_index_array, Hi in Hday. simpl in Hday.
    rewrite Hres in Hday. injection Hday as <-.
    eexists. split; [exact Hnth | done].
Qed.

Lemma C1_witness : resolve (VInt 4) = Some fallback.
Proof.
  apply (C1_unknown_code_fallback 4). not_listed.
Defined.

(** ** C2: the empty city *)

Lemma white_space_stripped (blank rest : string) :
  blank ∈ white_space ->
  strip_any white_space (blank +:+ rest) = Some rest
  /\ (String.length rest < String.length (blank +:+ rest))%nat.
Proof.
  intros Hin.
  let blanks := eval vm_compute in white_space in
    change white_space with blanks in Hin.
  repeat (apply elem_of_cons in Hin as [-> | Hin];
          [split; [vm_compute; reflexivity
                  | cbv [String.append]; simpl; lia] |]).
  by apply elem_of_nil in Hin.
Qed.

Lemma strip_all_step (patterns : list string) (fuel : nat) (s : string) :
  strip_all patterns (S fuel) s
  = match strip_any patterns s with
    | Some rest => strip_all patterns fuel rest
    | None => s
    end.
Proof. reflexivity. Qed.

Lemma strip_all_whitespace (s : string) :
  whitespace_only s ->
  forall fuel, (String.length s <= fuel)%nat ->
    strip_all white_space fuel s = EmptyString.
Proof.
  induction 1 as [| blank rest Hblank _ IH]; intros fuel Hfuel.
  - by destruct fuel.
  - destruct (white_space_stripped blank rest Hblank) as [Hstrip Hlen].
    destruct fuel as [| fuel]; [lia |].
    rewrite strip_all_step, Hstrip. apply IH. lia.
Qed.

Lemma trim_whitespace (s : string) : whitespace_only s -> trim s = EmptyString.
Proof.
  intros Hs. unfold trim, trimStart.
  by rewrite (strip_all_whitespace s Hs).
Qed.

(** C2, as stated, fails: called on a single space, getWeather sends the
    geocoding request and fails with the message of that request, not with
    the empty-input error. *)
Lemma C2_counterexample :
  whitespace_only " "
  /\ requests (getWeather paris_world " " initial).1 = [geocodeUrl " "]
  /\ (getWeather paris_world " " initial).2
     = Threw (new_Error (Msg geocode_failure)).
Proof.
  split; [| split; vm_compute; reflexivity].
  apply (ws_more " " EmptyString); [| constructor].
  vm_compute. repeat constructor.
Qed.

(** C2, amended: getWeather fails with the empty-input error, before any
    network call, for the empty city name; the submit listener trims the
    content of the input field first, so a submission that is empty or made
    of white space only ends with that error on display and no request
    sent. *)
Theorem C2_empty_input_rejected (w : World) (st : State) (input : string) :
  whitespace_only input ->
  getWeather w EmptyString st
    = (st, Threw (new_Error (Msg "City name is required.")))
  /\ trim input = EmptyString
  /\ on_submit w input st
     = ({| now := now st; timer := timer st; requests := requests st;
           resultDiv := TextContent "Error: City name is required." |},
        Returned tt).
Proof.
  intros Hinput. split; [reflexivity |].
  pose proof (trim_whitespace input Hinput) as Htrim. split; [done |].
  unfold on_submit. rewrite Htrim. reflexivity.
Qed.

Lemma C2_witness :
  on_submit paris_world "   " initial
  = ({| now := now initial; timer := None; requests := [];
        resultDiv := TextContent "Error: City name is required." |},
     Returned tt).
Proof.
  apply (C2_empty_input_rejected paris_world initial "   ").
  apply (ws_more " " "  "); [vm_compute; repeat constructor |].
  apply (ws_more " " " "); [vm_compute; repeat constructor |].
  apply (ws_more " " EmptyString); [vm_compute; repeat constructor |].
  constructor.
Defined.

(** ** C4 and C9: the forecast follows [daily.time] *)

(** A column of the forecast, read off entry by entry. *)
Lemma forecast_column (days : list ForecastDay) (column : list value)
    (field : ForecastDay -> value) :
  length column = length days ->
  (forall i day, days !! i = Some day ->
     field day = default VUndefined (column !! i)) ->
  field <$> days = column.
Proof.
  intros Hlen Hfield. apply list_eq. intros i. rewrite list_lookup_fmap.
  destruct (days !! i) as [day |] eqn:Hday; simpl.
  - destruct (lookup_lt_is_Some_2 column i) as [x Hx].
    { apply lookup_lt_Some in Hday. lia. }
    by rewrite (Hfield i day Hday), Hx.
  - apply lookup_ge_None in Hday. symmetry. apply lookup_ge_None. lia.
Qed.

(** C4: on a well-formed forecast answer whose [daily.time] has five entries,
    getWeather returns a report whose forecast has exactly five entries, in
    the order of the daily arrays of the answer: the i-th entry carries the
    i-th entry of [daily.time] as its date, the i-th maximum, minimum,
    sunrise and sunset, and the description and icon class the table gives
    for the i-th code. *)
Theorem C4_five_days_in_order (w : World) (city_ : string) (st st' : State)
    (name_ weatherData : value) (times codes maxs mins rises sets : list value) :
  city_ <> EmptyString ->
  request_forecast w city_ st = (st', Returned (name_, weatherData)) ->
  well_formed_forecast weatherData times codes maxs mins rises sets ->
  length times = 5%nat ->
  exists r,
    getWeather w city_ st = (st', Returned r)
    /\ length (forecast r) = 5%nat
    /\ fd_date <$> forecast r = times
    /\ fd_maxTemp <$> forecast r = maxs
    /\ fd_minTemp <$> forecast r = mins
    /\ fd_sunrise <$> forecast r = rises
    /\ fd_sunset <$> forecast r = sets
    /\ forall i code, codes !! i = Some code ->
         exists day info,
           forecast r !! i = Some day
           /\ resolve code = Some info
           /\ fd_weatherDescription day = r_description info
           /\ fd_iconClass day = r_iconClass info.
Proof.
  intros Hcity Hreq [Hcur Harrays Hpar Hcodes] Hfive.
  pose proof (arrays_indexable _ _ _ _ _ _ _ Harrays) as Hidx.
  destruct Harrays as [Htime Hcode Hmax Hmin Hrise Hset].
  destruct (getWeather_report w city_ st st' name_ weatherData times)
    as (r & info & Hrun & _ & _ & _ & Hlen & Hdays); try done.
  { rewrite Hcode. apply codes_resolve. intros i c _ Hc.
    eapply Forall_lookup_1; eauto. }
  apply Forall_cons in Hpar as [Hlcodes Hpar].
  apply Forall_cons in Hpar as [Hlmaxs Hpar].
  apply Forall_cons in Hpar as [Hlmins Hpar].
  apply Forall_cons in Hpar as [Hlrises Hpar].
  apply Forall_cons in Hpar as [Hlsets _].
  assert (forall i day, forecast r !! i = Some day ->
            exists date day_info,
              times !! i = Some date
              /\ resolve (default VUndefined (codes !! i)) = Some day_info
              /\ day = day_of (get_field weatherData "daily") date i day_info)
    as Hentry.
  { intros i day Hday.
    destruct (lookup_lt_is_Some_2 times i) as [date Hdate].
    { apply lookup_lt_Some in Hday. lia. }
    destruct (Hdays i date Hdate) as (day_info & Hres & Hnth).
    rewrite Hcode, get_index_array in Hres.
    exists date, day_info. repeat split; [done | done | congruence]. }
  exists r. split; [done |]. split; [congruence |].
  split; [| split; [| split; [| split; [| split]]]].
  - apply forecast_column; [congruence |]. intros i day Hday.
    destruct (Hentry i day Hday) as (date & day_info & Hdate & _ & ->).
    simpl. by rewrite Hdate.
  - apply forecast_column; [congruence |]. intros i day Hday.
    destruct (Hentry i day Hday) as (date & day_info & _ & _ & ->).
    simpl. by rewrite Hmax, get_index_array.
  - apply forecast_column; [congruence |]. intros i day Hday.
    destruct (Hentry i day Hday) as (date & day_info & _ & _ & ->).
    simpl. by rewrite Hmin, get_index_array.
  - apply forecast_column; [congruence |]. intros i day Hday.
    destruct (Hentry i day Hday) as (date & day_info & _ & _ & ->).
    simpl. by rewrite Hrise, get_index_array.
  - apply forecast_column; [congruence |]. intros i day Hday.
    destruct (Hentry i day Hday) as (date & day_info & _ & _ & ->).
    simpl. by rewrite Hset, get_index_array.
  - intros i code Hi.
    destruct (lookup_lt_is_Some_2 (forecast r) i) as [day Hday].
    { apply lookup_lt_Some in Hi. lia. }
    destruct (Hentry i day Hday) as (date & day_info & _ & Hres & ->).
    rewrite Hi in Hres. simpl in Hres.
    exists (day_of (get_field weatherData "daily") date i day_info), day_info.
    by repeat split.
Qed.

Lemma C4_witness :
  exists r,
    getWeather paris_world "Paris" initial = (after_both "Paris", Returned r)
    /\ length (forecast r) = 5%nat
    /\ fd_date <$> forecast r = paris_times
    /\ fd_maxTemp <$> forecast r
       = [VNum "19.1"; VNum "20"; VNum "17.5"; VNum "16"; VNum "21.3"].
Proof.
  destruct (C4_five_days_in_order paris_world "Paris" initial
              (after_both "Paris") (VStr "Paris") paris_forecast paris_times
              [VInt 2; VInt 3; VInt 61; VInt 4; VInt 0]
              [VNum "19.1"; VNum "20"; VNum "17.5"; VNum "16"; VNum "21.3"]
              [VNum "9.1"; VNum "10"; VNum "7.5"; VNum "6"; VNum "11.3"]
              [VStr "2024-01-01T08:43"; VStr "2024-01-02T08:43";
               VStr "2024-01-03T08:43"; VStr "2024-01-04T08:43";
               VStr "2024-01-05T08:43"]
              [VStr "2024-01-01T17:04"; VStr "2024-01-02T17:05";
               VStr "2024-01-03T17:06"; VStr "2024-01-04T17:07";
               VStr "2024-01-05T17:08"])
    as (r & Hrun & Hlen & Hdates & Hmaxs & _).
  - discriminate.
  - vm_compute. reflexivity.
  - split.
    + split; [reflexivity | by eexists].
    + by split.
    + by repeat constructor.
    + repeat constructor; by eexists.
  - reflexivity.
  - exists r. split; [exact Hrun |]. split; [exact Hlen |].
    split; [exact Hdates | exact Hmaxs].
Defined.

(** C9: whatever the lengths of the other five daily arrays, the forecast
    getWeather returns has one entry per entry of [daily.time]; an index past
    the end of an array reads as undefined in that entry instead of raising an
    error (for the code this means the fallback description and icon), and
    entries of the other arrays past the length of [daily.time] are never
    looked at. *)
Theorem C9_length_follows_time (w : World) (city_ : string) (st st' : State)
    (name_ weatherData : value) (times codes maxs mins rises sets : list value) :
  city_ <> EmptyString ->
  request_forecast w city_ st = (st', Returned (name_, weatherData)) ->
  current_block weatherData ->
  daily_arrays weatherData times codes maxs mins rises sets ->
  (forall i c, (i < length times)%nat -> codes !! i = Some c -> printable c) ->
  exists r,
    getWeather w city_ st = (st', Returned r)
    /\ length (forecast r) = length times
    /\ forall i date, times !! i = Some date ->
         exists day info,
           forecast r !! i = Some day
           /\ fd_date day = date
           /\ fd_maxTemp day = default VUndefined (maxs !! i)
           /\ fd_minTemp day = default VUndefined (mins !! i)
           /\ fd_sunrise day = default VUndefined (rises !! i)
           /\ fd_sunset day = default VUndefined (sets !! i)
           /\ resolve (default VUndefined (codes !! i)) = Some info
           /\ fd_weatherDescription day = r_description info
           /\ fd_iconClass day = r_iconClass info
           /\ (codes !! i = None -> info = fallback).
Proof.
  intros Hcity Hreq Hcur Harrays Hcodes.
  pose proof (arrays_indexable _ _ _ _ _ _ _ Harrays) as Hidx.
  destruct Harrays as [Htime Hcode Hmax Hmin Hrise Hset].
  destruct (getWeather_report w city_ st st' name_ weatherData times)
    as (r & info & Hrun & _ & _ & _ & Hlen & Hdays); try done.
  { rewrite Hcode. by apply codes_resolve. }
  exists r. split; [done |]. split; [done |].
  intros i date Hdate.
  destruct (Hdays i date Hdate) as (day_info & Hday & Hnth).
  rewrite Hcode, get_index_array in Hday.
  exists (day_of (get_field weatherData "daily") date i day_info), day_info.
  split; [exact Hnth |]. unfold day_of. simpl.
  rewrite Hmax, Hmin, Hrise, Hset, !get_index_array.
  repeat split; try done.
  intros Hnone. rewrite Hnone in Hday. vm_compute in Hday.
  injection Hday as <-. reflexivity.
Qed.

Lemma C9_witness :
  exists r,
    getWeather (serving "Paris" paris_geocode ragged_forecast 3600000) "Paris"
      initial = (after_both "Paris", Returned r)
    /\ length (forecast r) = 3%nat.
Proof.
  destruct (C9_length_follows_time
              (serving "Paris" paris_geocode ragged_forecast 3600000) "Paris"
              initial (after_both "Paris") (VStr "Paris") ragged_forecast
              [VStr "2024-01-01"; VStr "2024-01-02"; VStr "2024-01-03"]
              [VInt 3] []
              [VNum "9.1"; VNum "10"; VNum "7.5"; VNum "6"; VNum "11.3"]
              [VStr "2024-01-01T08:43"]
              [VStr "2024-01-01T17:04"; VNull; VNull;
               VObj [("toString", VNull)]])
    as (r & Hrun & Hlen & _).
  - discriminate.
  - vm_compute. reflexivity.
  - split; [reflexivity | by eexists].
  - by split.
  - intros [| i] c Hi Hc; [| done]. injection Hc as <-. by eexists.
  - exists r. split; [exact Hrun | exact Hlen].
Defined.

(** ** C7 and C10: incomplete forecast answers *)

(** C7, as stated, fails: a forecast body that is the JSON text null has no
    current block either, and on it getWeather fails with the message of the
    TypeError raised by the read of [current_weather], rethrown by the
    catch-all, not with the incomplete-data error. *)
Lemma C7_counterexample :
  truthy (get_field null_forecast "current_weather") = false
  /\ getWeather (serving "Paris" paris_geocode null_forecast 3600000) "Paris"
       initial
     = (after_both "Paris",
        Threw (new_Error (EngineMsg (ReadOfNullish "current_weather"))))
  /\ new_Error (EngineMsg (ReadOfNullish "current_weather"))
     <> new_Error (Msg "Current weather data not available at the moment.").
Proof. repeat split; try (vm_compute; reflexivity). discriminate. Qed.

(** C7, amended: when the forecast answer has no current block, getWeather
    fails and returns no report, whatever the daily block holds: with the
    incomplete-data error "Current weather data not available at the moment."
    when the decoded body is anything but null, and with the message of the
    TypeError of reading [current_weather] of null, rethrown as an Error,
    when the body is null. *)
Theorem C7_missing_current_weather (w : World) (city_ : string)
    (st st' : State) (name_ weatherData : value) :
  city_ <> EmptyString ->
  request_forecast w city_ st = (st', Returned (name_, weatherData)) ->
  truthy (get_field weatherData "current_weather") = false ->
  getWeather w city_ st
  = (st',
     Threw (new_Error
              (if nullish weatherData
               then EngineMsg (ReadOfNullish "current_weather")
               else Msg "Current weather data not available at the moment."))).
Proof.
  intros Hcity Hreq Hcw.
  rewrite (getWeather_steps w city_ st st' name_ weatherData Hcity Hreq).
  unfold assemble, member, bind, ret.
  destruct (nullish weatherData); [reflexivity |].
  by rewrite Hcw.
Qed.

Lemma C7_witness :
  getWeather (serving "Paris" paris_geocode no_current_block 3600000) "Paris"
    initial
  = (after_both "Paris",
     Threw (new_Error
              (Msg "Current weather data not available at the moment."))).
Proof.
  apply (C7_missing_current_weather _ "Paris" initial (after_both "Paris")
           (VStr "Paris") no_current_block).
  - discriminate.
  - vm_compute. reflexivity.
  - reflexivity.
Defined.

(** C10: when the forecast answer has a daily block without the [time] array,
    getWeather throws and returns no report.  The validation looks at the two
    blocks only, so once both are there the failure is the TypeError of
    calling [map] on undefined, which the catch-all rethrows as an Error with
    the same message. *)
Theorem C10_missing_time_array (w : World) (city_ : string) (st st' : State)
    (name_ weatherData : value) :
  city_ <> EmptyString ->
  request_forecast w city_ st = (st', Returned (name_, weatherData)) ->
  truthy (get_field weatherData "daily") = true ->
  get_field (get_field weatherData "daily") "time" = VUndefined ->
  exists e,
    getWeather w city_ st = (st', Threw e)
    /\ name e = Error
    /\ (current_block weatherData ->
        assemble name_ weatherData st'
          = (st', Threw (engine_error TypeError (ReadOfNullish "map")))
        /\ message e = EngineMsg (ReadOfNullish "map")).
Proof.
  intros Hcity Hreq Hdaily Htime.
  rewrite (getWeather_steps w city_ st st' name_ weatherData Hcity Hreq).
  assert (nullish weatherData = false) as Hwd by by destruct weatherData.
  unfold assemble, member, bind, ret, lookup_or_fallback, lift_option.
  rewrite Hwd, Hdaily, Htime.
  destruct (truthy (get_field weatherData "current_weather")) eqn:Hcw; simpl.
  - destruct (resolve _) as [info |] eqn:Hinfo; simpl.
    + exists (new_Error (EngineMsg (ReadOfNullish "map"))).
      split; [reflexivity |]. split; [reflexivity |]. by intros _.
    + exists (new_Error (EngineMsg NotPrimitive)).
      split; [reflexivity |]. split; [reflexivity |]. intros [_ Hcode].
      apply resolve_printable in Hcode as [? Hcode]. congruence.
  - eexists. split; [reflexivity |]. split; [reflexivity |].
    intros [Hpresent _]. congruence.
Qed.

Lemma C10_witness :
  exists e,
    getWeather (serving "Paris" paris_geocode no_time_array 3600000) "Paris"
      initial = (after_both "Paris", Threw e)
    /\ name e = Error
    /\ message e = EngineMsg (ReadOfNullish "map").
Proof.
  destruct (C10_missing_time_array
              (serving "Paris" paris_geocode no_time_array 3600000) "Paris"
              initial (after_both "Paris") (VStr "Paris") no_time_array)
    as (e & Hrun & Hname & Hmessage).
  - discriminate.
  - vm_compute. reflexivity.
  - reflexivity.
  - reflexivity.
  - exists e. repeat split; [exact Hrun | exact Hname |].
    apply Hmessage. split; [reflexivity | by eexists].
Defined.

(** ** C5: the messages of [fetchJSON] *)

(** C5 fails on the code: the timer is cleared as soon as the response head
    is in, before the body is read.  A request whose head arrives after
    100 ms and whose body takes ten more seconds runs for 10.1 s against a
    timeout of 5 s and is neither cancelled nor reported as timed out: the
    call returns the body.  When the body never ends the call never settles
    at all.  Only a request whose head is late gets the timeout message. *)
Theorem C5_body_outlasts_timeout :
  fetchJSON (answering slow_body) "u" "fallback" 5000 initial
    = (settled initial "u" (now initial + 10100), Returned (VObj []))
  /\ (fetchJSON (answering (Response 100 true BodyStalled)) "u" "fallback"
        5000 initial).2 = Pending
  /\ (fetchJSON (answering Silent) "u" "fallback" 5000 initial).2
     = Threw (new_Error (Msg timeout_message)).
Proof. repeat split; vm_compute; reflexivity. Qed.

(** ** C8: the name in the report *)

Lemma length_not_zero (A : Type) (x : A) (l : list A) :
  is_zero (VInt (Z.of_nat (length (x :: l)))) = false.
Proof.
  unfold is_zero, VInt. apply String.eqb_neq.
  change "0" with (pretty 0). intros H. apply (inj pretty) in H.
  simpl in H. lia.
Qed.







(** ** C3: the dates of the forecast request *)

(** The two calendar conversions agree: the day number of the first of the
    month of a day, moved on by the day of the month, is that day. *)
Lemma civil_roundtrip (days : Z) :
  let '(y, m, d) := civil_from_days days in
  1 <= m <= 12 /\ days_from_civil y m 1 + d - 1 = days.
Proof.
  unfold civil_from_days, days_from_civil.
  set (z := days + 719468). set (era := z / 146097).
  set (doe := z - era * 146097).
  set (yoe := (doe - doe / 1460 + doe / 36524 - doe / 146096) / 365).
  set (doy := doe - (365 * yoe + yoe / 4 - yoe / 100)).
  set (mp := (5 * doy + 2) / 153).
  assert (0 <= doe <= 146096) as Hdoe
    by (subst doe era; Z.div_mod_to_equations; lia).
  assert (0 <= yoe <= 399) as Hyoe
    by (subst yoe; Z.div_mod_to_equations; lia).
  assert (0 <= doy <= 365) as Hdoy
    by (subst doy yoe; Z.div_mod_to_equations; lia).
  assert (0 <= mp <= 11) as Hmp by (subst mp; Z.div_mod_to_equations; lia).
  destruct (Z.ltb_spec mp 10) as [Hlow | Hhigh].
  - replace (mp + 3 <=? 2) with false by (symmetry; apply Z.leb_gt; lia).
    replace (2 <? mp + 3) with true by (symmetry; apply Z.ltb_lt; lia).
    split; [lia |].
    replace (yoe + era * 400 + 0) with (yoe + era * 400) by lia.
    replace ((yoe + era * 400) / 400) with era
      by (Z.div_mod_to_equations; lia).
    replace (yoe + era * 400 - era * 400) with yoe by lia.
    replace (mp + 3 - 3) with mp by lia.
    subst doy doe z. lia.
  - replace (mp - 9 <=? 2) with true by (symmetry; apply Z.leb_le; lia).
    replace (2 <? mp - 9) with false by (symmetry; apply Z.ltb_ge; lia).
    split; [lia |].
    replace (yoe + era * 400 + 1 - 1) with (yoe + era * 400) by lia.
    replace ((yoe + era * 400) / 400) with era
      by (Z.div_mod_to_equations; lia).
    replace (yoe + era * 400 - era * 400) with yoe by lia.
    replace (mp - 9 + 9) with mp by lia.
    subst doy doe z. lia.
Qed.

(** Moving the day of the month by [n] moves the day by [n]. *)
Lemma MakeDay_same_month (t n : Z) :
  MakeDay (YearFromTime t) (MonthFromTime t) (DateFromTime t + n) = Day t + n.
Proof.
  unfold MakeDay, YearFromTime, MonthFromTime, DateFromTime.
  pose proof (civil_roundtrip (Day t)) as H.
  destruct (civil_from_days (Day t)) as [[y m] d]. simpl.
  destruct H as [Hm Hday].
  replace ((m - 1) / 12) with 0 by (Z.div_mod_to_equations; lia).
  replace ((m - 1) mod 12 + 1) with m by (Z.div_mod_to_equations; lia).
  replace (y + 0) with y by lia. lia.
Qed.

(** In a zone whose offset from UTC never changes, [setDate] on the local
    day of the month plus [n] moves the time value by [n] days exactly. *)
Lemma setDate_constant_offset (w : World) (offset t n : Z) :
  (forall u isUTC, LocalTZA w u isUTC = offset) ->
  setDate w t (getDate w t + n) = t + n * msPerDay.
Proof.
  intros Hzone. unfold setDate, getDate, UTC, LocalTime, MakeDate.
  rewrite !Hzone, MakeDay_same_month.
  unfold Day, TimeWithinDay, msPerDay. Z.div_mod_to_equations. lia.
Qed.

(** So in such a zone the window the code asks for is the current UTC date
    and the four days after it. *)
Lemma window_in_utc (w : World) (offset t : Z) :
  (forall u isUTC, LocalTZA w u isUTC = offset) ->
  endDate_of w t = startDate_of (t + 4 * msPerDay)
  /\ Day (t + 4 * msPerDay) = Day t + 4.
Proof.
  intros Hzone. unfold endDate_of, startDate_of.
  rewrite (setDate_constant_offset w offset t 4 Hzone). split; [done |].
  unfold Day, msPerDay. Z.div_mod_to_equations. lia.
Qed.

(** C3 fails on the code: the start date is the current date in UTC, cut out
    of [toISOString], not the current local date.  In Brisbane at 08:00 on
    2 January 2024 the request asks for 1 to 5 January.  The end date is
    found by adding 4 to the local day of the month and is printed in UTC as
    well, so across a change of the UTC offset the window need not even span
    five days: in New York at 19:30 on 8 March 2024 the request asks for
    9 to 12 March. *)
Theorem C3_window_starts_at_utc_date :
  local_date brisbane_world (now initial + 150) = "2024-01-02"
  /\ requests (getWeather brisbane_world "Brisbane" initial).1
     = [geocodeUrl "Brisbane";
        weatherUrl "-27.4679" "153.0281" "2024-01-01" "2024-01-05"]
  /\ local_date new_york_world (now new_york_evening + 150) = "2024-03-08"
  /\ requests (getWeather new_york_world "New York" new_york_evening).1
     = [geocodeUrl "New York";
        weatherUrl "40.7143" "-74.006" "2024-03-09" "2024-03-12"].
Proof. repeat split; vm_compute; reflexivity. Qed.

(** ** C6: what reaches the markup *)

Lemma string_forall_app (p : ascii -> bool) (s1 s2 : string) :
  string_forall p (s1 +:+ s2) = string_forall p s1 && string_forall p s2.
Proof.
  induction s1 as [| c s1 IH]; [done |].
  cbv [String.append]. fold String.append. simpl. by rewrite IH, andb_assoc.
Qed.

(** What [escapeHtml] puts out holds no character that could open a tag or
    close an attribute. *)
Lemma escape_text_inert (s : string) :
  string_forall (fun c => negb (markup_char c)) (escape_text s) = true.
Proof.
  induction s as [| c s IH]; [done |].
  simpl. rewrite string_forall_app, IH, andb_true_r.
  unfold escape_char, markup_char.
  destruct (Ascii.eqb c "&"); [done |].
  destruct (Ascii.eqb c "<") eqn:Hlt; [done |].
  destruct (Ascii.eqb c ">") eqn:Hgt; [done |].
  destruct (Ascii.eqb c dquote) eqn:Hdq; [done |].
  destruct (Ascii.eqb c "'") eqn:Hsq; [done |].
  simpl. by rewrite Hlt, Hgt, Hdq, Hsq.
Qed.

Lemma escapeHtml_returned (text : value) (st st' : State) (safe : string) :
  escapeHtml text st = (st', Returned safe) ->
  st' = st /\ exists s, safe = escape_text s.
Proof.
  unfold escapeHtml, template, lift_option, bind, ret, throw. intros H.
  repeat (case_match; simplify_eq); eauto.
  split; [done |]. by exists "[object Object]".
Qed.

Lemma escapeHtml_to_string (text : value) (st st' : State) (safe : string) :
  escapeHtml text st = (st', Returned safe) ->
  exists s, to_string text = Some s /\ safe = escape_text s.
Proof.
  unfold escapeHtml, template, lift_option, bind, ret, throw. intros H.
  repeat (case_match; simplify_eq);
    try (eexists; split; reflexivity).
  exists "[object Object]". split; [| reflexivity].
  match goal with Hown : assoc _ _ = None |- _ => simpl; by rewrite Hown end.
Qed.

Lemma append_assoc (s1 s2 s3 : string) :
  (s1 +:+ s2) +:+ s3 = s1 +:+ (s2 +:+ s3).
Proof.
  induction s1 as [| c s1 IH]; [done |].
  cbv [String.append]. fold String.append. by rewrite IH.
Qed.

Lemma forEach_day_extends (w : World) (days : list ForecastDay)
    (html out : string) (st st' : State) :
  forEach_day w days html st = (st', Returned out) ->
  exists rest, out = html +:+ rest.
Proof.
  revert html st. induction days as [| day days IH]; intros html st.
  - intros [= _ <-]. exists EmptyString.
    clear. induction html as [| c html IH]; [done |].
    cbv [String.append]. fold String.append. by rewrite <- IH.
  - simpl. unfold bind.
    destruct (day_markup w day st) as [st1 [piece | |]]; try discriminate.
    intros H. apply IH in H as [rest ->].
    exists (piece +:+ rest). apply append_assoc.
Qed.

(** The part of C6 that holds: the markup the listener builds opens with a
    heading in which the city name stands escaped. *)
Lemma heading_escaped (w : World) (r : WeatherReport) (st st' : State)
    (html : string) :
  build_html w r st = (st', Returned html) ->
  exists safe rest,
    escapeHtml (city r) st = (st, Returned safe)
    /\ string_forall (fun c => negb (markup_char c)) safe = true
    /\ html = "<h2>Weather in " +:+ safe +:+ "</h2>" +:+ rest.
Proof.
  unfold build_html, bind at 1.
  destruct (escapeHtml (city r) st) as [st1 [safe | |]] eqn:Hsafe;
    try discriminate.
  destruct (escapeHtml_returned _ _ _ _ Hsafe) as [-> [s ->]].
  unfold bind at 1.
  destruct (current_markup (currentWeather r) st) as [st2 [current | |]];
    try discriminate.
  unfold bind, ret.
  destruct (forEach_day w (forecast r) _ st2) as [st3 [out | |]] eqn:Hdays;
    try discriminate.
  intros [= _ <-]. apply forEach_day_extends in Hdays as [rest ->].
  eexists _, _. split; [done |]. split; [apply escape_text_inert |].
  rewrite !append_assoc. reflexivity.
Qed.

(** C6 fails on the code: only the city name goes through [escapeHtml].  With
    a geocoder name and a forecast date that both contain a script element,
    the heading shows the name as escaped text, and the date is spliced into
    the markup as it came. *)
Theorem C6_forecast_date_not_escaped :
  exists html,
    displayed_html (on_submit script_world "<script>alert(1)</script>" initial).1
      = Some html
    /\ contains "<h2>Weather in &lt;script&gt;alert(1)&lt;/script&gt;</h2>" html
       = true
    /\ contains "<script>alert(1)</script>" html = false
    /\ contains "<h4><script>alert(2)</script></h4>" html = true.
Proof.
  eexists. split; [vm_compute; reflexivity |].
  repeat split; vm_compute; reflexivity.
Qed.

(** * Further properties of the code *)

(** ** The table *)

Lemma table_known (entries : list (Z * ConditionInfo)) (k : Z)
    (info : ConditionInfo) :
  NoDup entries.*1 ->
  (k, info) ∈ entries ->
  (list_to_map (prod_map pretty id <$> entries) : gmap string ConditionInfo)
    !! pretty k = Some info.
Proof.
  intros Hnodup Hin. apply elem_of_list_to_map_1.
  - rewrite <- list_fmap_compose.
    change (fst ∘ prod_map pretty id) with (pretty ∘ (fst : Z * ConditionInfo -> Z)).
    rewrite list_fmap_compose. apply NoDup_fmap; [apply _ | done].
  - apply list_elem_of_fmap. by exists (k, info).
Qed.

Lemma known_codes_distinct : NoDup known_codes.
Proof. apply (bool_decide_unpack _). vm_compute. exact I. Qed.

Lemma weatherIcons_known (k : Z) (info : ConditionInfo) :
  (k, info) ∈ weatherIcons_entries -> weatherIcons !! pretty k = Some info.
Proof. exact (table_known weatherIcons_entries k info known_codes_distinct). Qed.

(** X1: every entry of the table is reachable under its own code: no key of
    the object literal is written twice, so a listed code resolves to the
    description and icon class written beside it, never to another entry and
    never to the fallback. *)
Theorem X1_listed_code_resolves (k : Z) (info : ConditionInfo) :
  (k, info) ∈ weatherIcons_entries ->
  resolve (VInt k) = Some (resolved_entry info)
  /\ forall st, lookup_or_fallback (VInt k) st = (st, Returned (resolved_entry info)).
Proof.
  intros Hin.
  assert (resolve (VInt k) = Some (resolved_entry info)) as Hres.
  { change (resolve (VInt k))
      with (Some (or_fallback (weatherIcons_key (pretty k)))).
    unfold weatherIcons_key.
    by rewrite (weatherIcons_known k info Hin). }
  split; [done |]. intros st. unfold lookup_or_fallback. by rewrite Hres.
Qed.

Lemma X1_witness :
  resolve (VInt 61)
  = Some {| r_description := VStr "Slight rain";
            r_iconClass := VStr "wi-sprinkle" |}.
Proof.
  apply (X1_listed_code_resolves 61
           {| description := "Slight rain"; iconClass := "wi-sprinkle" |}).
  unfold weatherIcons_entries. do 11 apply list_elem_of_further.
  apply list_elem_of_here.
Defined.

(** X2: a code that spells the name of a member every object inherits
    (for instance the string "constructor") is not an unknown code to the
    table expression: the read finds the inherited member, the fallback is
    skipped, and description and icon class come out undefined. *)
Theorem X2_inherited_name_skips_fallback (key : string) :
  key ∈ object_prototype_names ->
  resolve (VStr key) = Some resolved_inherited
  /\ resolve (VStr key) <> Some fallback.
Proof.
  intros Hin. unfold object_prototype_names in Hin.
  repeat (apply elem_of_cons in Hin as [-> | Hin];
          [split; [vm_compute; reflexivity
                  | intros H; vm_compute in H; discriminate H] |]).
  by apply elem_of_nil in Hin.
Qed.

Lemma X2_witness : resolve (VStr "constructor") = Some resolved_inherited.
Proof.
  apply (X2_inherited_name_skips_fallback "constructor").
  apply list_elem_of_here.
Defined.

(** ** [escapeHtml] *)

(** The replacement of one character can be told from what follows it: two
    escaped texts that agree began with the same character. *)
Lemma escape_char_cancel (c1 c2 : ascii) (r1 r2 : string) :
  escape_char c1 +:+ r1 = escape_char c2 +:+ r2 -> c1 = c2 /\ r1 = r2.
Proof.
  unfold escape_char.
  repeat match goal with
         | |- context [Ascii.eqb ?a ?b] =>
             destruct (Ascii.eqb_spec a b); try subst a; simpl
         end;
    cbv [String.append]; intros H; simplify_eq; done || congruence.
Qed.

Lemma escape_char_not_empty (c : ascii) (r : string) :
  escape_char c +:+ r <> EmptyString.
Proof.
  unfold escape_char.
  repeat (destruct (Ascii.eqb c _)); by cbv [String.append].
Qed.

Lemma escape_text_inj (s1 s2 : string) :
  escape_text s1 = escape_text s2 -> s1 = s2.
Proof.
  revert s2. induction s1 as [| c1 s1 IH]; intros [| c2 s2]; simpl.
  - done.
  - intros H. symmetry in H. by apply escape_char_not_empty in H.
  - intros H. by apply escape_char_not_empty in H.
  - intros H. apply escape_char_cancel in H as [-> H]. by rewrite (IH s2 H).
Qed.

(** X3: escaping loses nothing: two different strings never escape to the
    same text, because the ampersand itself is replaced and the five entities
    differ from one another.  In particular a text that already holds an
    entity is escaped once more, not taken for its own escape. *)
Theorem X3_escape_is_injective (text1 text2 : string) (st : State) :
  text1 <> text2 ->
  (escapeHtml (VStr text1) st).2 <> (escapeHtml (VStr text2) st).2.
Proof.
  unfold escapeHtml, template, lift_option, bind, ret. simpl.
  intros Hdiff [= H]. by apply Hdiff, escape_text_inj.
Qed.

Lemma X3_witness :
  (escapeHtml (VStr "<") initial).2 <> (escapeHtml (VStr "&lt;") initial).2.
Proof. apply (X3_escape_is_injective "<" "&lt;" initial). discriminate. Defined.

(** X4: whatever [escapeHtml] returns, for any value at all, holds none of
    the characters that open or close a tag or an attribute value, and the
    call leaves the page and the clock alone. *)
Theorem X4_escaped_text_is_inert (text : value) (st st' : State)
    (safe : string) :
  escapeHtml text st = (st', Returned safe) ->
  st' = st /\ string_forall (fun c => negb (markup_char c)) safe = true.
Proof.
  intros H. apply escapeHtml_returned in H as [-> [s ->]].
  split; [done | apply escape_text_inert].
Qed.

Lemma X4_witness :
  string_forall (fun c => negb (markup_char c))
    "&lt;b&gt;Tom &amp; Jerry&#039;s&lt;/b&gt;" = true.
Proof.
  apply (X4_escaped_text_is_inert (VStr "<b>Tom & Jerry's</b>") initial initial).
  vm_compute. reflexivity.
Defined.

(** X5: a string with none of the five characters in it comes back from
    [escapeHtml] unchanged. *)
Theorem X5_plain_text_unchanged (text : string) (st : State) :
  string_forall (fun c => negb (replaced_char c)) text = true ->
  escapeHtml (VStr text) st = (st, Returned text).
Proof.
  intros Hplain.
  assert (escape_text text = text) as Hsame.
  { induction text as [| c text IH]; [done |].
    simpl in Hplain. apply andb_true_iff in Hplain as [Hc Hrest].
    simpl. rewrite (IH Hrest).
    unfold replaced_char, markup_char in Hc. unfold escape_char.
    destruct (Ascii.eqb c "&"); [done |].
    destruct (Ascii.eqb c "<"); [done |].
    destruct (Ascii.eqb c ">"); [done |].
    destruct (Ascii.eqb c dquote); [done |].
    destruct (Ascii.eqb c "'"); [done |].
    by cbv [String.append]. }
  unfold escapeHtml, template, lift_option, bind, ret. simpl.
  by rewrite Hsame.
Qed.

Lemma X5_witness :
  escapeHtml (VStr "Rio de Janeiro") initial = (initial, Returned "Rio de Janeiro").
Proof.
  apply (X5_plain_text_unchanged "Rio de Janeiro" initial). reflexivity.
Defined.

(** ** [fetchJSON] *)

Lemma fetchJSON_state (w : World) (url errorMessage : string) (timeout : Z)
    (st : State) :
  exists t, (fetchJSON w url errorMessage timeout st).1 = settled st url t.
Proof.
  rewrite fetchJSON_run. unfold fetchJSON_outcome.
  destruct (net w url) as [t | | t ok [d v | d |]];
    repeat case_bool_decide; try destruct ok; simpl; eauto.
Qed.

(** X6: a call of [fetchJSON] sends its request exactly once, whatever comes
    of it (no retry), leaves no abort timer armed behind it, and does not
    touch the page. *)
Theorem X6_fetchJSON_single_attempt (w : World) (url errorMessage : string)
    (timeout : Z) (st : State) :
  let st' := (fetchJSON w url errorMessage timeout st).1 in
  requests st' = (requests st ++ [url])%list
  /\ timer st' = None
  /\ resultDiv st' = resultDiv st.
Proof.
  destruct (fetchJSON_state w url errorMessage timeout st) as [t Ht].
  simpl. by rewrite Ht.
Qed.

(** X7: [fetchJSON] returns a value in one case only: the response head
    arrived before the abort timer fired, its status was a success, and the
    body decoded; the value is the decoded body, and the call ends when the
    body has been read.  The timer fires after the delay [setTimeout] makes of
    the timeout, which is the timeout itself for 0 up to 2^31 - 1 ms and
    wraps around as a 32-bit integer beyond that, so that with a timeout of
    2^31 ms nothing is ever returned. *)
Theorem X7_fetchJSON_returns_iff (w : World) (url errorMessage : string)
    (timeout : Z) (st st' : State) (v : value) :
  (fetchJSON w url errorMessage timeout st = (st', Returned v)
   <-> exists t d,
         net w url = Response t true (BodyJson d v)
         /\ t < timer_delay timeout
         /\ st' = settled st url (now st + t + d))
  /\ (0 <= timeout < 2147483648 -> timer_delay timeout = timeout)
  /\ timer_delay 2147483648 = 0.
Proof.
  split; [| split; [apply timer_delay_in_range | reflexivity]].
  rewrite fetchJSON_run. unfold fetchJSON_outcome. split.
  - destruct (net w url) as [t | | t ok [d v' | d |]];
      repeat case_bool_decide; try destruct ok; simpl; try discriminate.
    intros [= <- <-]. exists t, d. repeat split; try done; lia.
  - intros (t & d & -> & Ht & ->).
    by rewrite bool_decide_eq_false_2 by lia.
Qed.

Lemma X7_witness :
  fetchJSON paris_world (geocodeUrl "Paris") geocode_failure 5000 initial
  = (settled initial (geocodeUrl "Paris") (now initial + 120 + 30),
     Returned paris_geocode).
Proof.
  apply (X7_fetchJSON_returns_iff paris_world (geocodeUrl "Paris")
           geocode_failure 5000 initial).
  exists 120, 30. split; [reflexivity |]. split; [reflexivity | reflexivity].
Defined.

(** X8: whatever goes wrong inside [fetchJSON], what it throws is a plain
    Error whose message is one of two texts, the timeout text or the message
    the caller supplied; the error raised by the network layer or by the JSON
    decoder never gets out. *)
Theorem X8_fetchJSON_throws_two_messages (w : World)
    (url errorMessage : string) (timeout : Z) (st : State) (e : exn) :
  (fetchJSON w url errorMessage timeout st).2 = Threw e ->
  e = new_Error (Msg timeout_message) \/ e = new_Error (Msg errorMessage).
Proof.
  rewrite fetchJSON_run. unfold fetchJSON_outcome.
  destruct (net w url) as [t | | t ok [d v | d |]];
    repeat case_bool_decide; try destruct ok; simpl;
    intros [= <-]; auto.
Qed.

Lemma X8_witness :
  new_Error (Msg "fallback") = new_Error (Msg timeout_message)
  \/ new_Error (Msg "fallback") = new_Error (Msg "fallback").
Proof.
  apply (X8_fetchJSON_throws_two_messages
           (answering (Response 80 false (BodyJson 5 VNull))) "u" "fallback"
           5000 initial).
  reflexivity.
Defined.

(** ** [getWeather] *)

(** Steps 4 to 7 only compute: they send nothing and wait for nothing. *)
Lemma forecast_day_state (daily date : value) (index : nat) (st : State) :
  (forecast_day daily date index st).1 = st.
Proof.
  unfold forecast_day, element, lookup_or_fallback, lift_option, bind, ret,
    throw.
  repeat (case_match; simplify_eq/=); done.
Qed.

Lemma map_from_state (daily : value) (times : list value) (start : nat)
    (st : State) :
  (map_from (forecast_day daily) start times st).1 = st.
Proof.
  revert start. induction times as [| date times IH]; intros start; [done |].
  simpl. unfold bind.
  pose proof (forecast_day_state daily date start st) as Hday.
  destruct (forecast_day daily date start st) as [st1 [day | e |]];
    simpl in Hday; subst st1; try done.
  specialize (IH (S start)).
  by destruct (map_from (forecast_day daily) (S start) times st) as [st2 [| |]].
Qed.

Lemma assemble_state (name_ weatherData : value) (st : State) :
  (assemble name_ weatherData st).1 = st.
Proof.
  unfold assemble, member, lookup_or_fallback, lift_option, array_map, bind,
    ret, throw.
  repeat (case_match; simplify_eq/=); try done.
  all: match goal with
       | H : map_from _ _ ?l ?s = (?s', _) |- _ =>
           pose proof (map_from_state (get_field weatherData "daily") l 0 s)
             as Hmap; rewrite H in Hmap; exact Hmap
       end.
Qed.



Lemma getWeather_unfold (w : World) (city_ : string) (st : State) :
  city_ <> EmptyString ->
  getWeather w city_ st
  = rethrown (bind (request_forecast w city_)
                   (fun found => assemble found.1 found.2) st).
Proof.
  intros Hcity. unfold getWeather.
  change (truthy (VStr city_)) with (negb (String.eqb city_ EmptyString)).
  apply String.eqb_neq in Hcity. rewrite Hcity.
  change (negb (negb false)) with false. cbv iota.
  unfold try_catch, rethrown, throw.
  by destruct (bind _ _ st) as [? [| |]].
Qed.







(** X12: a forecast answer that has its current block but no daily block
    makes [getWeather] fail with "Forecast data not available at the
    moment."; the current block is checked first, so this message is only
    seen when that block is there. *)
Theorem X12_missing_daily_block (w : World) (city_ : string) (st st' : State)
    (name_ weatherData : value) :
  city_ <> EmptyString ->
  request_forecast w city_ st = (st', Returned (name_, weatherData)) ->
  truthy (get_field weatherData "current_weather") = true ->
  truthy (get_field weatherData "daily") = false ->
  getWeather w city_ st
  = (st', Threw (new_Error (Msg "Forecast data not available at the moment."))).
Proof.
  intros Hcity Hreq Hcw Hdaily.
  rewrite (getWeather_steps w city_ st st' name_ weatherData Hcity Hreq).
  assert (nullish weatherData = false) as Hwd by by destruct weatherData.
  unfold assemble, member, bind, ret. rewrite Hwd, Hcw, Hdaily. reflexivity.
Qed.

Lemma X12_witness :
  getWeather (serving "Paris" paris_geocode no_daily_block 3600000) "Paris"
    initial
  = (after_both "Paris",
     Threw (new_Error (Msg "Forecast data not available at the moment."))).
Proof.
  apply (X12_missing_daily_block _ "Paris" initial (after_both "Paris")
           (VStr "Paris") no_daily_block).
  - discriminate.
  - vm_compute. reflexivity.
  - reflexivity.
  - reflexivity.
Defined.

(** X13: [getWeather] never lets a TypeError or any other kind of exception
    out: whatever it throws, on any input and any behaviour of the two
    services, is a plain Error (the catch-all wraps the message in a new
    one). *)
Theorem X13_getWeather_throws_plain_errors (w : World) (city_ : string)
    (st st' : State) (e : exn) :
  getWeather w city_ st = (st', Threw e) -> name e = Error.
Proof.
  unfold getWeather, try_catch, throw.
  destruct (negb (truthy (VStr city_))).
  - by intros [= _ <-].
  - destruct (bind _ _ st) as [st1 [r | e1 |]]; intros H; by simplify_eq.
Qed.

Lemma X13_witness :
  name (new_Error (EngineMsg (ReadOfNullish "map"))) = Error.
Proof.
  apply (X13_getWeather_throws_plain_errors
           (serving "Paris" paris_geocode no_time_array 3600000) "Paris"
           initial (after_both "Paris")).
  vm_compute. reflexivity.
Defined.

Lemma request_forecast_sent (w : World) (city_ : string) (st st' : State)
    (o : Outcome (value * value)) :
  request_forecast w city_ st = (st', o) ->
  exists sent,
    requests st' = (requests st ++ sent)%list
    /\ resultDiv st' = resultDiv st
    /\ (sent = [geocodeUrl city_]
        \/ exists latitude longitude startDate endDate,
             sent = [geocodeUrl city_;
                     weatherUrl latitude longitude startDate endDate]).
Proof.
  unfold request_forecast. unfold bind at 1.
  destruct (fetchJSON_state w (geocodeUrl city_) geocode_failure 5000 st)
    as [t1 Hst1].
  destruct (fetchJSON w (geocodeUrl city_) geocode_failure 5000 st)
    as [st1 [geocodeData | e |]]; simpl in Hst1; subst st1;
    try (intros [= <- <-]; exists [geocodeUrl city_]; by auto).
  unfold member, destructurable, new_Date, template, lift_option, bind, ret,
    throw.
  intros H.
  repeat (case_match; simplify_eq/=);
    try (exists [geocodeUrl city_]; by auto).
  all: match goal with
       | H : fetchJSON ?w0 ?url ?m ?to ?s = (?s', _) |- _ =>
           destruct (fetchJSON_state w0 url m to s) as [t2 Hst2];
           rewrite H in Hst2; simpl in Hst2; subst s';
           eexists [geocodeUrl city_; url]; simpl;
           rewrite <- app_assoc; split; [done |]; split; [done |];
           right; by eexists _, _, _, _
       end.
Qed.

Lemma rethrown_state {A} (r : State * Outcome A) : (rethrown r).1 = r.1.
Proof. by destruct r as [? [| |]]. Qed.

Lemma getWeather_sent (w : World) (city_ : string) (st : State) :
  let st' := (getWeather w city_ st).1 in
  exists sent,
    requests st' = (requests st ++ sent)%list
    /\ resultDiv st' = resultDiv st
    /\ (city_ = EmptyString /\ sent = []
        \/ city_ <> EmptyString /\ sent = [geocodeUrl city_]
        \/ city_ <> EmptyString
           /\ exists latitude longitude startDate endDate,
                sent = [geocodeUrl city_;
                        weatherUrl latitude longitude startDate endDate]).
Proof.
  simpl. destruct (decide (city_ = EmptyString)) as [-> | Hcity].
  - exists []. simpl. rewrite app_nil_r. auto.
  - rewrite (getWeather_unfold w city_ st Hcity), rethrown_state.
    unfold bind.
    destruct (request_forecast w city_ st) as [st1 o] eqn:Hrun.
    destruct (request_forecast_sent w city_ st st1 o Hrun)
      as (sent & Hreq & Hdiv & Hsent).
    destruct o as [[name_ wd] | e |]; simpl; rewrite ?assemble_state;
      exists sent; (split; [done |]); (split; [done |]);
      destruct Hsent as [-> | Hsent]; auto.
Qed.


(** X14: one call of [getWeather] sends at most two requests and never
    touches the page.  What it sends is nothing, or the geocoding request
    for the encoded city alone, or that request followed by one forecast
    request; for the empty city it sends nothing.  There is no retry, and
    no forecast request without a geocoding request before it. *)
Theorem X14_at_most_two_requests (w : World) (city_ : string) (st : State) :
  let st' := (getWeather w city_ st).1 in
  exists sent,
    requests st' = (requests st ++ sent)%list
    /\ resultDiv st' = resultDiv st
    /\ (length sent <= 2)%nat
    /\ (city_ = EmptyString -> sent = [])
    /\ (sent = []
        \/ sent = [geocodeUrl city_]
        \/ exists latitude longitude startDate endDate,
             sent = [geocodeUrl city_;
                     weatherUrl latitude longitude startDate endDate]).
Proof.
  destruct (getWeather_sent w city_ st) as (sent & Hreq & Hdiv & Hsent).
  simpl. exists sent. split; [done |]. split; [done |].
  destruct Hsent as [[-> ->] | [[Hcity ->] | [Hcity (? & ? & ? & ? & ->)]]].
  - repeat split; simpl; [lia | auto].
  - repeat split; simpl; [lia | done | auto].
  - repeat split; simpl; [lia | done |]. right; right. by eexists _, _, _, _.
Qed.

(** ** The dates of the request *)

(** X15: in a browser whose offset from UTC never changes, the two dates of
    the forecast request are the UTC date of the moment and the UTC date four
    days later: adding 4 to the local day of the month, month ends and leap
    days included, moves the instant by exactly four days. *)
Theorem X15_window_with_constant_offset (w : World) (offset t : Z) :
  (forall u isUTC, LocalTZA w u isUTC = offset) ->
  setDate w t (getDate w t + 4) = t + 4 * msPerDay
  /\ endDate_of w t = startDate_of (t + 4 * msPerDay)
  /\ Day (t + 4 * msPerDay) = Day t + 4.
Proof.
  intros Hzone. split; [by apply (setDate_constant_offset w offset) |].
  by apply (window_in_utc w offset).
Qed.

Lemma X15_witness :
  endDate_of brisbane_world (midnight_2024 + 59 * msPerDay)
  = startDate_of (midnight_2024 + 59 * msPerDay + 4 * msPerDay).
Proof.
  apply (X15_window_with_constant_offset brisbane_world 36000000).
  reflexivity.
Defined.

Lemma forall_below_spec (n : nat) (p : Z -> bool) :
  forall_below n p = true -> forall z, 0 <= z < Z.of_nat n -> p z = true.
Proof.
  induction n as [| n IH]; intros Hall z Hz; [lia |].
  simpl in Hall. apply andb_true_iff in Hall as [Hn Hrest].
  destruct (decide (z = Z.of_nat n)) as [-> | Hne]; [done |].
  apply IH; [done | lia].
Qed.

Lemma iso_year_digits (y : Z) : 0 <= y <= 9999 -> digits 4 (iso_year y) = true.
Proof.
  intros Hy.
  apply (forall_below_spec (Z.to_nat 10000) (fun y => digits 4 (iso_year y)));
    [vm_compute; reflexivity | lia].
Qed.

Lemma pad_2_digits (n : Z) : 0 <= n <= 99 -> digits 2 (pad 2 n) = true.
Proof.
  intros Hn.
  apply (forall_below_spec (Z.to_nat 100) (fun n => digits 2 (pad 2 n)));
    [vm_compute; reflexivity | lia].
Qed.

Lemma civil_day_range (days : Z) : 1 <= (civil_from_days days).2 <= 31.
Proof.
  unfold civil_from_days. simpl.
  set (z := days + 719468). set (era := z / 146097).
  set (doe := z - era * 146097).
  set (yoe := (doe - doe / 1460 + doe / 36524 - doe / 146096) / 365).
  set (doy := doe - (365 * yoe + yoe / 4 - yoe / 100)).
  assert (0 <= doe <= 146096) as Hdoe
    by (subst doe era; Z.div_mod_to_equations; lia).
  assert (0 <= doy <= 365) as Hdoy
    by (subst doy yoe; Z.div_mod_to_equations; lia).
  Z.div_mod_to_equations. lia.
Qed.

Lemma digit_not_T (c : ascii) : is_digit c = true -> Ascii.eqb c "T" = false.
Proof.
  intros Hc. destruct (Ascii.eqb_spec c "T") as [-> | ?]; [discriminate | done].
Qed.

(** The date part of [toISOString] in the years 0 to 9999. *)
Lemma iso_date_shaped (t : Z) :
  0 <= YearFromTime t <= 9999 ->
  date_shaped (split_T_0 (toISOString t)) = true.
Proof.
  intros Hyear. unfold toISOString.
  pose proof (iso_year_digits _ Hyear) as Hy.
  assert (digits 2 (pad 2 (MonthFromTime t + 1)) = true) as Hm.
  { apply pad_2_digits. unfold MonthFromTime.
    pose proof (civil_roundtrip (Day t)) as H.
    destruct (civil_from_days (Day t)) as [[y m] d]. simpl. lia. }
  assert (digits 2 (pad 2 (DateFromTime t)) = true) as Hd.
  { apply pad_2_digits. unfold DateFromTime.
    pose proof (civil_day_range (Day t)). lia. }
  destruct (iso_year (YearFromTime t)) as [| y1 [| y2 [| y3 [| y4 [|]]]]];
    try discriminate Hy.
  destruct (pad 2 (MonthFromTime t + 1)) as [| m1 [| m2 [|]]];
    try discriminate Hm.
  destruct (pad 2 (DateFromTime t)) as [| d1 [| d2 [|]]];
    try discriminate Hd.
  unfold digits in *. simpl in Hy, Hm, Hd.
  repeat match goal with
         | H : _ && _ = true |- _ => apply andb_true_iff in H as [? ?]
         end.
  cbv [String.append]. simpl.
  rewrite !digit_not_T by done. simpl.
  unfold date_shaped. simpl.
  repeat match goal with H : is_digit _ = true |- _ => rewrite H; clear H end.
  reflexivity.
Qed.

(** X16: both dates of the forecast request have the shape YYYY-MM-DD, four
    digits, a dash, two digits, a dash, two digits, whenever the instants they
    are taken from lie in the years 0 to 9999 of the UTC calendar. *)
Theorem X16_request_dates_are_iso (w : World) (today : Z) :
  0 <= YearFromTime today <= 9999 ->
  0 <= YearFromTime (setDate w today (getDate w today + 4)) <= 9999 ->
  date_shaped (startDate_of today) = true
  /\ date_shaped (endDate_of w today) = true.
Proof.
  intros Hstart Hend. split; by apply iso_date_shaped.
Qed.

Lemma X16_witness :
  date_shaped (startDate_of (now new_york_evening)) = true
  /\ date_shaped (endDate_of new_york_world (now new_york_evening)) = true.
Proof.
  apply (X16_request_dates_are_iso new_york_world (now new_york_evening));
    vm_compute; split; discriminate.
Defined.

(** ** The submit listener *)

(** What the listener comes to, by the outcome of [getWeather] on the trimmed
    input and, when there is a report, of the building of the markup. *)
Lemma on_submit_run (w : World) (input : string) (st : State) :
  on_submit w input st
  = match getWeather w (trim input) (loading st) with
    | (st1, Returned weatherData) =>
        match build_html w weatherData st1 with
        | (st2, Returned html) => (displaying (InnerHTML html) st2, Returned tt)
        | (st2, Threw error) =>
            (displaying
               (TextContent ("Error: " +:+ message_text w (message error))) st2,
             Returned tt)
        | (st2, Pending) => (st2, Pending)
        end
    | (st1, Threw error) =>
        (displaying
           (TextContent ("Error: " +:+ message_text w (message error))) st1,
         Returned tt)
    | (st1, Pending) => (st1, Pending)
    end.
Proof.
  unfold on_submit, bind, try_catch, show. simpl.
  change {| now := now st; timer := timer st; requests := requests st;
            resultDiv := TextContent "Loading..." |} with (loading st).
  destruct (getWeather w (trim input) (loading st)) as [st1 [r | e |]];
    [| done | done].
  by destruct (build_html w r st1) as [st2 [html | e |]].
Qed.

(** X17: the listener never fails: whatever the user typed and whatever the
    two services do, its promise is fulfilled or stays pending, it is never
    rejected, so no error escapes to the page as an unhandled rejection. *)
Theorem X17_listener_never_rejects (w : World) (input : string) (st : State) :
  (on_submit w input st).2 = Returned tt \/ (on_submit w input st).2 = Pending.
Proof.
  rewrite on_submit_run.
  destruct (getWeather w (trim input) (loading st)) as [st1 [r | e |]]; auto.
  destruct (build_html w r st1) as [st2 [html | e |]]; auto.
Qed.

(** X18: when [getWeather] fails, the listener shows "Error: " followed by
    the message of the error, and it does so through [textContent]: the
    message is put on the page as text, never as markup, and nothing else on
    the page changes. *)
Theorem X18_failure_is_shown_as_text (w : World) (input : string)
    (st st' : State) (e : exn) :
  getWeather w (trim input) (loading st) = (st', Threw e) ->
  on_submit w input st
  = (displaying (TextContent ("Error: " +:+ message_text w (message e))) st',
     Returned tt).
Proof. intros Hrun. by rewrite on_submit_run, Hrun. Qed.

Lemma X18_witness :
  on_submit (serving "Atlantis" empty_geocode paris_forecast 0) " Atlantis "
    initial
  = (displaying
       (TextContent "Error: City not found. Please enter a valid city name.")
       (settled (loading initial) (geocodeUrl "Atlantis")
          (now initial + 120 + 30)),
     Returned tt).
Proof.
  apply (X18_failure_is_shown_as_text
           (serving "Atlantis" empty_geocode paris_forecast 0) " Atlantis "
           initial _ (new_Error (Msg "City not found. Please enter a valid city name."))).
  vm_compute. reflexivity.
Defined.

(** X19: while [getWeather] has not settled the page keeps showing
    "Loading...": if a body never ends, nothing ever replaces that text. *)
Theorem X19_pending_keeps_loading (w : World) (input : string)
    (st st' : State) :
  getWeather w (trim input) (loading st) = (st', Pending) ->
  on_submit w input st = (st', Pending)
  /\ resultDiv st' = TextContent "Loading...".
Proof.
  intros Hrun. split; [by rewrite on_submit_run, Hrun |].
  destruct (getWeather_sent w (trim input) (loading st)) as (_ & _ & Hdiv & _).
  by rewrite Hrun in Hdiv.
Qed.

Lemma X19_witness :
  exists st',
    on_submit (answering (Response 50 true BodyStalled)) "Paris" initial
    = (st', Pending)
    /\ resultDiv st' = TextContent "Loading...".
Proof.
  eexists. apply (X19_pending_keeps_loading
                    (answering (Response 50 true BodyStalled)) "Paris" initial).
  vm_compute. reflexivity.
Defined.

(** X20: a report whose city is undefined or null, which is what
    [getWeather] returns when the first geocoding result has no name, is not
    displayed: [escapeHtml] calls [toString] on it, that throws inside the
    [try] block, and the page shows "Error: " with the message of that
    TypeError instead of the weather. *)
Theorem X20_nameless_result_shows_error (w : World) (input : string)
    (st st' : State) (weatherData : WeatherReport) :
  getWeather w (trim input) (loading st) = (st', Returned weatherData) ->
  nullish (city weatherData) = true ->
  on_submit w input st
  = (displaying
       (TextContent ("Error: " +:+ engine_text w (ReadOfNullish "toString")))
       st',
     Returned tt).
Proof.
  intros Hrun Hcity. rewrite on_submit_run, Hrun.
  unfold build_html, escapeHtml, bind, throw. by rewrite Hcity.
Qed.

Lemma X20_witness :
  on_submit (serving "Paris" nameless_geocode paris_forecast 3600000) "Paris"
    initial
  = (displaying (TextContent "Error: TypeError")
       (loading (after_both "Paris")),
     Returned tt).
Proof.
  apply (X20_nameless_result_shows_error
           (serving "Paris" nameless_geocode paris_forecast 3600000) "Paris"
           initial (loading (after_both "Paris"))
           {| city := VUndefined;
              currentWeather :=
                {| cw_temperature := VNum "18.4";
                   cw_weatherDescription := VStr "Partly cloudy";
                   cw_iconClass := VStr "wi-day-cloudy" |};
              forecast :=
                [day_of (get_field paris_forecast "daily") (VStr "2024-01-01") 0
                   (resolved_entry {| description := "Partly cloudy";
                                      iconClass := "wi-day-cloudy" |});
                 day_of (get_field paris_forecast "daily") (VStr "2024-01-02") 1
                   (resolved_entry {| description := "Overcast";
                                      iconClass := "wi-cloudy" |});
                 day_of (get_field paris_forecast "daily") (VStr "2024-01-03") 2
                   (resolved_entry {| description := "Slight rain";
                                      iconClass := "wi-sprinkle" |});
                 day_of (get_field paris_forecast "daily") (VStr "2024-01-04") 3
                   fallback;
                 day_of (get_field paris_forecast "daily") (VStr "2024-01-05") 4
                   (resolved_entry {| description := "Clear sky";
                                      iconClass := "wi-day-sunny" |})] |}).
  - vm_compute. reflexivity.
  - reflexivity.
Defined.

(** Building the markup only computes. *)
Lemma day_markup_state (w : World) (day : ForecastDay) (st : State) :
  (day_markup w day st).1 = st.
Proof.
  unfold day_markup, time_of_day, template, lift_option, bind, ret, throw.
  repeat (case_match; simplify_eq/=); done.
Qed.

Lemma forEach_day_state (w : World) (days : list ForecastDay) (html : string)
    (st : State) :
  (forEach_day w days html st).1 = st.
Proof.
  revert html. induction days as [| day days IH]; intros html; [done |].
  simpl. unfold bind.
  pose proof (day_markup_state w day st) as Hday.
  destruct (day_markup w day st) as [st1 [piece | e |]];
    simpl in Hday; subst st1; done.
Qed.

Lemma build_html_state (w : World) (r : WeatherReport) (st : State) :
  (build_html w r st).1 = st.
Proof.
  unfold build_html, bind at 1.
  destruct (escapeHtml (city r) st) as [st1 [safe | e |]] eqn:Hesc.
  - apply escapeHtml_returned in Hesc as [-> _].
    unfold current_markup, template, lift_option, bind, ret, throw.
    pose proof (fun html => forEach_day_state w (forecast r) html st) as Hdays.
    repeat (case_match; simplify_eq/=); try done.
    all: match goal with
         | H : forEach_day _ _ ?h _ = (?s, _) |- _ =>
             specialize (Hdays h); rewrite H in Hdays; exact Hdays
         end.
  - unfold escapeHtml, template, lift_option, bind, ret, throw in Hesc.
    repeat (case_match; simplify_eq/=); done.
  - unfold escapeHtml, template, lift_option, bind, ret, throw in Hesc.
    repeat (case_match; simplify_eq/=); done.
Qed.

(** X21: whenever the listener puts markup on the page, [getWeather] on the
    trimmed input has returned a report, and the markup opens with the
    heading [<h2>Weather in ...</h2>] around what [escapeHtml] returns on
    the city of that report; that text is the escaped form of the city as a
    string and holds no character that could open a tag or close an
    attribute value, so the city name cannot break out of the heading. *)
Theorem X21_displayed_heading_is_escaped (w : World) (input : string)
    (st : State) (html : string) :
  resultDiv (on_submit w input st).1 = InnerHTML html ->
  exists st1 r safe rest,
    getWeather w (trim input) (loading st) = (st1, Returned r)
    /\ escapeHtml (city r) st1 = (st1, Returned safe)
    /\ (exists s, to_string (city r) = Some s /\ safe = escape_text s)
    /\ html = "<h2>Weather in " +:+ safe +:+ "</h2>" +:+ rest
    /\ string_forall (fun c => negb (markup_char c)) safe = true.
Proof.
  rewrite on_submit_run.
  destruct (getWeather_sent w (trim input) (loading st))
    as (_ & _ & Hdiv & _).
  destruct (getWeather w (trim input) (loading st)) as [st1 [r | e |]];
    simpl in *; try discriminate; try (rewrite Hdiv; discriminate).
  pose proof (build_html_state w r st1) as Hsame.
  destruct (build_html w r st1) as [st2 [out | e |]] eqn:Hbuild;
    simpl in *; subst st2; try discriminate;
    try (rewrite Hdiv; discriminate).
  intros [= <-].
  apply heading_escaped in Hbuild as (safe & rest & Hesc & Hsafe & ->).
  exists st1, r, safe, rest. split; [done |]. split; [done |].
  split; [| done].
  by apply escapeHtml_to_string in Hesc.
Qed.

Lemma X21_witness :
  exists st1 r safe rest,
    getWeather script_world (trim "<script>alert(1)</script>")
      (loading initial) = (st1, Returned r)
    /\ escapeHtml (city r) st1 = (st1, Returned safe)
    /\ (exists s, to_string (city r) = Some s /\ safe = escape_text s)
    /\ default EmptyString
         (displayed_html
            (on_submit script_world "<script>alert(1)</script>" initial).1)
       = "<h2>Weather in " +:+ safe +:+ "</h2>" +:+ rest
    /\ string_forall (fun c => negb (markup_char c)) safe = true.
Proof.
  apply (X21_displayed_heading_is_escaped script_world
           "<script>alert(1)</script>" initial).
  vm_compute. reflexivity.
Defined.

(** ** The geocoding request *)

Lemma hex_digit_safe (n : N) : uri_safe (hex_digit n) = true.
Proof. unfold hex_digit. by repeat case_match. Qed.

Lemma encodeURIComponent_safe (s : string) :
  string_forall uri_safe (encodeURIComponent s) = true.
Proof.
  induction s as [| c s IH]; [done |].
  simpl. rewrite string_forall_app, IH, andb_true_r.
  destruct (uri_unreserved c) eqn:Hc; simpl.
  - unfold uri_safe. by rewrite Hc.
  - by rewrite !hex_digit_safe.
Qed.

(** X22: the geocoding URL is the fixed endpoint followed by the encoded
    city, and the encoded city is made of letters, digits, the marks
    [- _ . ! ~ * ' ( )] and percent signs only: whatever the user types,
    no [&], [=], [#], [?], [/] or space of theirs reaches the query string. *)
Theorem X22_city_cannot_alter_the_query (city_ : string) :
  exists query,
    geocodeUrl city_
    = "https://geocoding-api.open-meteo.com/v1/search?name=" +:+ query
    /\ string_forall uri_safe query = true
    /\ string_forall
         (fun c => negb (bool_decide (c ∈ ["&"; "="; "#"; "?"; "/"; " "]%char)))
         query = true.
Proof.
  exists (encodeURIComponent city_). split; [reflexivity |].
  pose proof (encodeURIComponent_safe city_) as Hsafe.
  split; [done |].
  induction (encodeURIComponent city_) as [| c q IH]; [done |].
  simpl in *. apply andb_true_iff in Hsafe as [Hc Hq].
  rewrite (IH Hq), andb_true_r.
  apply negb_true_iff, bool_decide_eq_false_2. intros Hin.
  repeat (apply elem_of_cons in Hin as [-> | Hin]; [discriminate Hc |]).
  by apply elem_of_nil in Hin.
Qed.

Lemma weatherUrl_not_geocodeUrl (latitude longitude startDate endDate : string)
    (city_ : string) :
  weatherUrl latitude longitude startDate endDate <> geocodeUrl city_.
Proof.
  unfold weatherUrl, geocodeUrl. rewrite <- !append_assoc.
  cbv [String.append]. discriminate.
Qed.

Lemma fetchJSON_same_net (w1 w2 : World) (url errorMessage : string)
    (timeout : Z) (st : State) :
  net w1 url = net w2 url ->
  fetchJSON w1 url errorMessage timeout st
  = fetchJSON w2 url errorMessage timeout st.
Proof. intros H. by rewrite !fetchJSON_run, H. Qed.

(** Steps 1 to 3 once the geocoder has answered with a non-empty list: what
    is left to do, with the first result. *)
Lemma request_forecast_first (w : World) (city_ : string) (st : State)
    (geocodeData first : value) (rest : list value) (t1 d1 : Z) :
  net w (geocodeUrl city_) = Response t1 true (BodyJson d1 geocodeData) ->
  t1 < 5000 ->
  get_field geocodeData "results" = VArr (first :: rest) ->
  request_forecast w city_ st
  = (destructurable first "latitude" ;;;
     today <- new_Date ;;
     latitude_text <- template (get_field first "latitude") ;;
     longitude_text <- template (get_field first "longitude") ;;
     weatherData <-
       fetchJSON w
         (weatherUrl latitude_text longitude_text (startDate_of today)
            (endDate_of w today))
         weather_failure 5000 ;;
     ret (get_field first "name", weatherData))
      (settled st (geocodeUrl city_) (now st + t1 + d1)).
Proof.
  intros Hgeo Ht1 Hresults.
  assert (nullish geocodeData = false) as Hdata by by destruct geocodeData.
  unfold request_forecast. unfold bind at 1. rewrite fetchJSON_run, Hgeo.
  unfold fetchJSON_outcome. rewrite timer_delay_5000.
  rewrite bool_decide_eq_false_2 by lia.
  simpl negb. cbv iota.
  unfold member. unfold bind at 1. rewrite Hdata. unfold ret at 1.
  rewrite Hresults.
  change (get_field (VArr (first :: rest)) "length")
    with (VInt (Z.of_nat (length (first :: rest)))).
  rewrite length_not_zero.
  change (negb (truthy (VArr (first :: rest))) || false) with false.
  cbv iota.
  change (get_index (VArr (first :: rest)) 0) with first.
  reflexivity.
Qed.

(** X23: of the matches the geocoder returns only the first counts: two runs
    that differ in nothing but the results after the first one send the same
    requests and end in the same report or the same error. *)
Theorem X23_only_first_result_is_used (w1 w2 : World) (city_ : string)
    (st : State) (geocodeData1 geocodeData2 first : value)
    (rest1 rest2 : list value) (t d : Z) :
  city_ <> EmptyString ->
  net w1 (geocodeUrl city_) = Response t true (BodyJson d geocodeData1) ->
  net w2 (geocodeUrl city_) = Response t true (BodyJson d geocodeData2) ->
  t < 5000 ->
  get_field geocodeData1 "results" = VArr (first :: rest1) ->
  get_field geocodeData2 "results" = VArr (first :: rest2) ->
  (forall url, url <> geocodeUrl city_ -> net w1 url = net w2 url) ->
  LocalTZA w1 = LocalTZA w2 ->
  getWeather w1 city_ st = getWeather w2 city_ st.
Proof.
  intros Hcity Hgeo1 Hgeo2 Ht Hres1 Hres2 Hnet Hzone.
  assert (request_forecast w1 city_ st = request_forecast w2 city_ st) as Hreq.
  { rewrite (request_forecast_first w1 city_ st geocodeData1 first rest1 t d)
      by done.
    rewrite (request_forecast_first w2 city_ st geocodeData2 first rest2 t d)
      by done.
    assert (forall today, endDate_of w1 today = endDate_of w2 today) as Hend.
    { intros today.
      unfold endDate_of, setDate, getDate, UTC, LocalTime. by rewrite Hzone. }
    unfold destructurable, new_Date, template, lift_option, bind, ret, throw.
    destruct (nullish first); [done |].
    destruct (to_string (get_field first "latitude")) as [latitude |];
      [| done].
    destruct (to_string (get_field first "longitude")) as [longitude |];
      [| done].
    rewrite Hend.
    rewrite (fetchJSON_same_net w1 w2)
      by (apply Hnet, weatherUrl_not_geocodeUrl).
    done. }
  rewrite !getWeather_unfold by done. unfold bind. by rewrite Hreq.
Qed.

Lemma X23_witness :
  getWeather paris_world "Paris" initial
  = getWeather (serving "Paris" crowded_geocode paris_forecast 3600000)
      "Paris" initial.
Proof.
  apply (X23_only_first_result_is_used paris_world
           (serving "Paris" crowded_geocode paris_forecast 3600000) "Paris"
           initial paris_geocode crowded_geocode
           (VObj [("latitude", VNum "48.8566"); ("longitude", VNum "2.3522");
                  ("name", VStr "Paris")])
           []
           [VObj [("latitude", VNum "33.6609"); ("longitude", VNum "-95.5555");
                  ("name", VStr "Paris")]; VNull] 120 30).
  - discriminate.
  - reflexivity.
  - reflexivity.
  - lia.
  - reflexivity.
  - reflexivity.
  - intros url Hurl. simpl.
    destruct (String.eqb_spec url (geocodeUrl "Paris")); [done | reflexivity].
  - reflexivity.
Defined.

(** ** The table inside [getWeather] *)

(** X24: on a well-formed forecast answer the report carries the current
    temperature exactly as the service sent it, and wherever a code of the
    answer is a listed one, for the current conditions or for a day, the
    report shows the description and the icon class written beside that code
    in the table. *)
Theorem X24_listed_codes_in_the_report (w : World) (city_ : string)
    (st st' : State) (name_ weatherData : value)
    (times codes maxs mins rises sets : list value) :
  city_ <> EmptyString ->
  request_forecast w city_ st = (st', Returned (name_, weatherData)) ->
  well_formed_forecast weatherData times codes maxs mins rises sets ->
  exists r,
    getWeather w city_ st = (st', Returned r)
    /\ cw_temperature (currentWeather r)
       = get_field (get_field weatherData "current_weather") "temperature"
    /\ (forall k info,
          (k, info) ∈ weatherIcons_entries ->
          get_field (get_field weatherData "current_weather") "weathercode"
            = VInt k ->
          cw_weatherDescription (currentWeather r) = VStr (description info)
          /\ cw_iconClass (currentWeather r) = VStr (iconClass info))
    /\ (forall i k info,
          (k, info) ∈ weatherIcons_entries ->
          codes !! i = Some (VInt k) ->
          exists day,
            forecast r !! i = Some day
            /\ fd_weatherDescription day = VStr (description info)
            /\ fd_iconClass day = VStr (iconClass info)).
Proof.
  intros Hcity Hreq [Hcur Harrays Hpar Hcodes].
  pose proof (arrays_indexable _ _ _ _ _ _ _ Harrays) as Hidx.
  destruct Harrays as [Htime Hcode _ _ _ _].
  apply Forall_cons in Hpar as [Hpar _].
  destruct (getWeather_report w city_ st st' name_ weatherData times)
    as (r & info & Hrun & _ & Hinfo & Hcw & Hlen & Hdays); try done.
  { rewrite Hcode. apply codes_resolve. intros i c _ Hc.
    eapply Forall_lookup_1; eauto. }
  assert (forall k entry, (k, entry) ∈ weatherIcons_entries ->
            resolve (VInt k) = Some (resolved_entry entry)) as Hlisted.
  { intros k entry Hin.
    change (resolve (VInt k))
      with (Some (or_fallback (weatherIcons_key (pretty k)))).
    unfold weatherIcons_key. by rewrite (weatherIcons_known k entry Hin). }
  exists r. split; [done |]. split; [by rewrite Hcw |]. split.
  - intros k entry Hin Hcurrent.
    rewrite Hcurrent, (Hlisted k entry Hin) in Hinfo.
    injection Hinfo as <-. by rewrite Hcw.
  - intros i k entry Hin Hi.
    destruct (lookup_lt_is_Some_2 times i) as [date Hdate].
    { apply lookup_lt_Some in Hi. lia. }
    destruct (Hdays i date Hdate) as (day_info & Hday & Hnth).
    rewrite Hcode, get_index_array, Hi in Hday. simpl in Hday.
    rewrite (Hlisted k entry Hin) in Hday. injection Hday as <-.
    eexists. split; [exact Hnth | done].
Qed.

Lemma X24_witness :
  exists r,
    getWeather paris_world "Paris" initial = (after_both "Paris", Returned r)
    /\ cw_temperature (currentWeather r) = VNum "18.4".
Proof.
  destruct (X24_listed_codes_in_the_report paris_world "Paris" initial
              (after_both "Paris") (VStr "Paris") paris_forecast paris_times
              [VInt 2; VInt 3; VInt 61; VInt 4; VInt 0]
              [VNum "19.1"; VNum "20"; VNum "17.5"; VNum "16"; VNum "21.3"]
              [VNum "9.1"; VNum "10"; VNum "7.5"; VNum "6"; VNum "11.3"]
              [VStr "2024-01-01T08:43"; VStr "2024-01-02T08:43";
               VStr "2024-01-03T08:43"; VStr "2024-01-04T08:43";
               VStr "2024-01-05T08:43"]
              [VStr "2024-01-01T17:04"; VStr "2024-01-02T17:05";
               VStr "2024-01-03T17:06"; VStr "2024-01-04T17:07";
               VStr "2024-01-05T17:08"])
    as (r & Hrun & Htemp & _).
  - discriminate.
  - vm_compute. reflexivity.
  - split.
    + split; [reflexivity | by eexists].
    + by split.
    + by repeat constructor.
    + repeat constructor; by eexists.
  - exists r. split; [exact Hrun | exact Htemp].
Defined.
